(** * E-Mandi: the SMS command interpreter and the auction endpoints of app.py

    A shallow embedding of [src/app.py].  The three tables of the in-memory
    SQLite database are lists of rows in insertion order, primary keys are
    the integers SQLite hands out, [float] is IEEE binary64 (Python's float),
    and the effects of a request (calls of [send_sms], [socketio.emit]) are
    returned as a trace next to the new database.

    A commit can fail, and the model says where: a NaN bound to a REAL
    column is NULL, which the NOT NULL column [quantity_kg] refuses
    ([IntegrityError]); the default of [Bid.timestamp] is the float
    [time.time()], which the DateTime column refuses ([StatementError]); a
    key outside 64 bits cannot be bound to a query ([OverflowError]).  None
    of the three is caught by [except (ValueError, IndexError)], so the
    request ends with a 500.  A REAL column gives back 0.0 for -0.0.

    Left out: the login code drawn for a new user is taken to be fresh (the
    column is unique).  Text is 7-bit: [lower] and [strip] act on ASCII
    letters and on the white space of 7-bit text.  The [members] column holds
    [json.dumps] of a list of user ids and is read back with [json.loads];
    it is modelled by the list it encodes. *)

From Stdlib Require Import ZArith List String Ascii Bool Lia.
From Stdlib Require Import Floats.SpecFloat DecimalString.
Import ListNotations.

Local Open Scope string_scope.
Local Open Scope Z_scope.

(** ** Text: [str.strip], [str.lower], [str.split(' ')] *)

Module Text.

(** [str.isspace] on 7-bit characters: TAB..CR, FS..US and the space. *)
Definition is_space (c : ascii) : bool :=
  let n := nat_of_ascii c in
  ((9 <=? n) && (n <=? 13))%nat || ((28 <=? n) && (n <=? 32))%nat.

Definition lower_char (c : ascii) : ascii :=
  let n := nat_of_ascii c in
  if ((65 <=? n) && (n <=? 90))%nat then ascii_of_nat (n + 32) else c.

Fixpoint lower (s : string) : string :=
  match s with
  | EmptyString => EmptyString
  | String c r => String (lower_char c) (lower r)
  end.

Fixpoint lstrip (s : string) : string :=
  match s with
  | EmptyString => EmptyString
  | String c r => if is_space c then lstrip r else s
  end.

Fixpoint rev_string (acc s : string) : string :=
  match s with
  | EmptyString => acc
  | String c r => rev_string (String c acc) r
  end.

Definition rstrip (s : string) : string :=
  rev_string "" (lstrip (rev_string "" s)).

Definition strip (s : string) : string := rstrip (lstrip s).

(** [s.split(' ')]: cut at every single space, empty pieces kept, so the
    result is never the empty list. *)
Fixpoint split_space (s : string) : list string :=
  match s with
  | EmptyString => [""]
  | String c r =>
      if Ascii.eqb c " "%char then "" :: split_space r
      else match split_space r with
           | [] => [String c ""]
           | w :: ws => String c w :: ws
           end
  end.


End Text.

(** ** Numbers: Python [float] and [int] *)

Definition float := spec_float.

Module Float.

Definition prec : Z := 53.
Definition emax : Z := 1024.

Definition zero : float := S754_zero false.
Definition add : float -> float -> float := SFadd prec emax.
Definition mul : float -> float -> float := SFmul prec emax.
Definition ltb : float -> float -> bool := SFltb.
Definition leb : float -> float -> bool := SFleb.
Definition eqb : float -> float -> bool := SFeqb.

(** [float(z)] for an [int] [z] (exact below 2^53, rounded to nearest even above). *)
Definition of_Z (z : Z) : float := binary_normalize prec emax z 0 false.

(** [bool(x)]: every float but the two zeros is true, NaN included. *)
Definition truthy (x : float) : bool := negb (eqb x zero).

Definition is_nan (x : float) : bool :=
  match x with S754_nan => true | _ => false end.

(** What a REAL column gives back for the number put in: the same number,
    but 0.0 for -0.0. *)
Definition stored (x : float) : float :=
  match x with S754_zero _ => zero | _ => x end.

(** A float bound to a REAL column: NaN is bound as NULL ([None]). *)
Definition bind_real (x : float) : option float :=
  if is_nan x then None else Some (stored x).

End Float.

(** A Python number as the handlers hold it in a local variable: the MSP
    table and the [or 0] sentinel are [int], everything parsed is [float]. *)
Inductive number :=
  | PyInt (z : Z)
  | PyFloat (x : float).

Definition to_float (n : number) : float :=
  match n with PyInt z => Float.of_Z z | PyFloat x => x end.

Definition number_truthy (n : number) : bool :=
  match n with PyInt z => negb (z =? 0) | PyFloat x => Float.truthy x end.

(** [a == b] between numbers *)
Definition number_eqb (a b : number) : bool := Float.eqb (to_float a) (to_float b).

(** [str(z)] for an [int] *)
Definition str_int (z : Z) : string := NilZero.string_of_int (Z.to_int z).

(** ** Data model: the three tables (lines 50-73) *)

Record User := mkUser {
  user_id : Z;
  phone_number : string;
  user_type : string;            (* 'farmer' or 'buyer' *)
  district : option string;
  login_code : string
}.

Record Lot := mkLot {
  lot_id : Z;
  farmer_id : Z;
  crop_type : string;
  quantity_kg : float;
  min_price : option float;      (* nullable *)
  status : string;               (* default 'open' *)
  is_collective : bool;          (* default False *)
  members : list Z               (* default "[]" *)
}.

Record Bid := mkBid {
  bid_id : Z;
  bid_lot_id : Z;
  bidder_id : Z;
  bid_amount : float
}.

Record DB := mkDB {
  users : list User;
  lots : list Lot;
  bids : list Bid
}.

Definition empty_db : DB := mkDB [] [] [].

(** The calls a request makes on the notification gateway and on the
    realtime notifier, in program order. *)
Inductive Event :=
  | SendSms (to message : string)
  | Emit (name : string) (lot : Z) (amount : float).

(** Autoincrement primary key: one more than the largest key in the table. *)
Definition next_id (ids : list Z) : Z := 1 + fold_right Z.max 0 ids.

(** [MSP_PRICES] (lines 37-41) *)
Definition MSP_PRICES : list (string * Z) :=
  [("wheat", 2275); ("rice", 2203); ("maize", 2090)].

(** [d.get(k)] *)
Fixpoint dict_get {V : Type} (d : list (string * V)) (k : string) : option V :=
  match d with
  | [] => None
  | (k', v) :: r => if String.eqb k' k then Some v else dict_get r k
  end.

(** A computation that may raise. *)
Inductive Raise (A : Type) :=
  | Return (a : A)
  | Throw (exception : string).
Arguments Return {A} _.
Arguments Throw {A} _.

(** *** Queries *)

(** [User.query.filter_by(phone_number=p).first()] *)
Definition user_by_phone (db : DB) (p : string) : option User :=
  find (fun u => String.eqb (phone_number u) p) (users db).

(** [User.query.get(i)] *)
Definition get_user (db : DB) (i : Z) : option User :=
  find (fun u => user_id u =? i) (users db).

(** The row of the lot table with key [i], if there is one. *)
Definition get_lot (db : DB) (i : Z) : option Lot :=
  find (fun l => lot_id l =? i) (lots db).

(** The keys SQLite can hold and look for: 64-bit signed integers. *)
Definition in_int64 (i : Z) : bool := (- 2 ^ 63 <=? i) && (i <? 2 ^ 63).

(** [Lot.query.get(i)]: binding a key outside 64 bits to the SELECT raises
    [OverflowError]. *)
Definition Lot_get (db : DB) (i : Z) : Raise (option Lot) :=
  if in_int64 i then Return (get_lot db i) else Throw "OverflowError".

(** [Lot.query.filter_by(is_collective=True, crop_type=c, status='open').first()] *)
Definition open_collective (db : DB) (c : string) : option Lot :=
  find (fun l => is_collective l && String.eqb (crop_type l) c
                 && String.eqb (status l) "open") (lots db).

(** The rows of [Bid.query.filter_by(lot_id=i)] *)
Definition bids_of (db : DB) (i : Z) : list Bid :=
  filter (fun b => bid_lot_id b =? i) (bids db).

(** SQL [max(...)]: NULL on no rows. *)
Definition sql_max (xs : list float) : option float :=
  match xs with
  | [] => None
  | x :: r => Some (fold_left (fun m y => if Float.ltb m y then y else m) r x)
  end.

(** [db.session.query(db.func.max(Bid.bid_amount)).filter_by(lot_id=i).scalar() or 0]
    (lines 117, 253, 291) *)
Definition highest_bid (db : DB) (i : Z) : number :=
  match sql_max (map bid_amount (bids_of db i)) with
  | Some m => if Float.truthy m then PyFloat m else PyInt 0
  | None => PyInt 0
  end.

(** *** Updates *)

Definition add_user (db : DB) (u : User) : DB :=
  mkDB (users db ++ [u]) (lots db) (bids db).

Definition add_lot (db : DB) (l : Lot) : DB :=
  mkDB (users db) (lots db ++ [l]) (bids db).

Definition add_bid (db : DB) (b : Bid) : DB :=
  mkDB (users db) (lots db) (bids db ++ [b]).

(** What the column default of [Bid.timestamp] hands to the column. *)
Inductive Stamp :=
  | Datetime
  | Seconds.

(** [default=lambda: time.time()] (line 73): seconds since the epoch, a
    float. *)
Definition timestamp_default : Stamp := Seconds.

(** The DateTime column of SQLite takes datetime objects only. *)
Definition bind_datetime (s : Stamp) : Raise unit :=
  match s with
  | Datetime => Return tt
  | Seconds => Throw "StatementError"
  end.

(** [db.session.add(b); db.session.commit()] for a bid: the row needs its
    [timestamp], which is the column default. *)
Definition insert_bid (db : DB) (b : Bid) : Raise DB :=
  match bind_datetime timestamp_default with
  | Return _ => Return (add_bid db b)
  | Throw e => Throw e
  end.

(** Write the row [l'] back over the row with its key. *)
Definition update_lot (db : DB) (l' : Lot) : DB :=
  mkDB (users db)
       (map (fun l => if lot_id l =? lot_id l' then l' else l) (lots db))
       (bids db).

(** ** [get_or_create_user] (lines 77-88)

    [code] is the twelve digits [random.randint] would draw. *)
Definition welcome (code : string) : string :=
  "Welcome to Farmer Market! Your login code is " ++ code
  ++ ". Use this for the web portal.".

Definition new_user (db : DB) (phone utype : string) (dist : option string)
    (code : string) : User :=
  mkUser (next_id (map user_id (users db))) phone utype dist code.

Definition get_or_create_user (db : DB) (phone utype : string)
    (dist : option string) (code : string) : User * DB * list Event :=
  match user_by_phone db phone with
  | Some u => (u, db, [])
  | None =>
      let u := new_user db phone utype dist code in
      (u, add_user db u, [SendSms phone (welcome code)])
  end.

(** ** The SMS webhook [sms_handler] (lines 130-240) *)

(** What a request leaves behind: the response, the database, and the
    calls made. *)
Record Outcome (R : Type) := mkOutcome {
  reply : R;
  db_after : DB;
  trace : list Event
}.
Arguments mkOutcome {R} & _ _ _.
Arguments reply {R} _.
Arguments db_after {R} _.
Arguments trace {R} _.

(** The response of the webhook: the text of the one [<Message>] of the
    TwiML document, or the 500 of an exception no [except] clause catches. *)
Inductive Answer :=
  | Message (text : string)
  | ServerError (exception : string).

Coercion Message : string >-> Answer.

(** The command was carried out or turned down, not broken off. *)
Definition is_message (a : Answer) : bool :=
  match a with Message _ => true | ServerError _ => false end.

Definition bind {A B : Type} (o : option A) (k : A -> option B) : option B :=
  match o with Some a => k a | None => None end.

Notation "x <- e ;; k" := (bind e (fun x => k))
  (at level 61, e at next level, right associativity).

Definition LIST_FORMAT : string :=
  "Invalid format. Use 'LIST CROP QUANTITY [PRICE]'.".
Definition BID_FORMAT : string :=
  "Invalid format. Use 'BID LOT_ID AMOUNT'.".
Definition COLLECTIVE_FORMAT : string :=
  "Invalid format. Use 'COLLECTIVE CROP QUANTITY DISTRICT'.".
Definition HELP : string :=
  "Welcome to the marketplace! Commands: 'LIST <CROP> <QTY> [PRICE]' or 'BID <LOT_ID> <AMT>'.".
Definition NOT_AVAILABLE : string := "Lot is not available for bidding.".

Section Handlers.

(** The builtins the handlers call, as parameters: [float(s)] and [int(s)]
    with [None] for [ValueError], and the text an f-string puts for a float. *)
Variable float_of_str : string -> option float.
Variable int_of_str : string -> option Z.
Variable str_float : float -> string.

Definition str_number (n : number) : string :=
  match n with PyInt z => str_int z | PyFloat x => str_float x end.

(** [x < n] for a float [x] and an entry [n] of the MSP table *)
Definition below (x : float) (n : Z) : bool := Float.ltb x (Float.of_Z n).

Definition too_low (mp : float) : string :=
  "Your bid is too low. Minimum price is Rs. " ++ str_float mp ++ ".".

Definition recorded (amount : float) (lot : Z) : string :=
  "Your bid of Rs. " ++ str_float amount ++ " for lot " ++ str_int lot
  ++ " has been recorded.".

Definition alert (amount : float) (crop : string) (lot msp : Z) : string :=
  "ALERT: A bid of Rs. " ++ str_float amount ++ " on your " ++ crop ++ " lot "
  ++ str_int lot ++ " is below the MSP of Rs. " ++ str_int msp ++ ".".

(** The LIST branch once its fields are parsed (lines 147-154).  The new
    row holds what the two REAL columns keep of [quantity] and [min_price];
    the reply is made from the local variables. *)
Definition do_list (db : DB) (crop : string) (quantity : float)
    (min_price : option number) (phone code : string) : Outcome Answer :=
  let '(user, db1, ev) := get_or_create_user db phone "farmer" None code in
  match Float.bind_real quantity with
  | None => mkOutcome (ServerError "IntegrityError") db1 ev
  | Some kept =>
      let new_lot :=
        mkLot (next_id (map lot_id (lots db1))) (user_id user) crop kept
              (match min_price with
               | Some p => Float.bind_real (to_float p)
               | None => None
               end) "open" false [] in
      let price_msg :=
        match min_price with
        | Some p => if number_truthy p
                    then " at your minimum price of Rs. " ++ str_number p
                    else " at the current MSP"
        | None => " at the current MSP"
        end in
      mkOutcome
        (Message ("Lot listed! Crop: " ++ crop ++ ", Quantity: "
                  ++ str_float quantity ++ "kg. Lot ID: "
                  ++ str_int (lot_id new_lot) ++ price_msg ++ "."))
        (add_lot db1 new_lot) ev
  end.

(** The [try] block of the LIST branch (lines 143-154); [None] is an
    exception the [except] clause catches. *)
Definition list_try (db : DB) (parts : list string) (phone code : string)
    : option (Outcome Answer) :=
  crop <- nth_error parts 1 ;;
  tok <- nth_error parts 2 ;;
  quantity <- float_of_str tok ;;
  min_price <- (if (3 <? Z.of_nat (List.length parts))
                then tok3 <- nth_error parts 3 ;;
                     p <- float_of_str tok3 ;;
                     Some (Some (PyFloat p))
                else Some (option_map PyInt (dict_get MSP_PRICES crop))) ;;
  Some (do_list db crop quantity min_price phone code).

(** The MSP alert at the end of an accepted bid (lines 188-193). *)
Definition msp_alert (db : DB) (lot : Lot) (lid : Z) (amount : float)
    : list Event :=
  match dict_get MSP_PRICES (Text.lower (crop_type lot)) with
  | Some msp =>
      if negb (msp =? 0) && below amount msp then
        match get_user db (farmer_id lot) with
        | Some farmer =>
            if negb (String.eqb (phone_number farmer) "")
            then [SendSms (phone_number farmer)
                          (alert amount (crop_type lot) lid msp)]
            else []
        | None => []
        end
      else []
  | None => []
  end.

(** The BID branch once its fields are parsed (lines 165-193). *)
Definition do_bid (db : DB) (lid : Z) (amount : float) (phone code : string)
    : Outcome Answer :=
  let '(user, db1, ev) := get_or_create_user db phone "buyer" None code in
  match Lot_get db1 lid with
  | Throw e => mkOutcome (ServerError e) db1 ev
  | Return None => mkOutcome NOT_AVAILABLE db1 ev
  | Return (Some lot) =>
      if negb (String.eqb (status lot) "open")
      then mkOutcome NOT_AVAILABLE db1 ev
      else
        let new_bid := mkBid (next_id (map bid_id (bids db1))) lid
                             (user_id user) amount in
        let accepted :=
          match insert_bid db1 new_bid with
          | Throw e => mkOutcome (ServerError e) db1 ev
          | Return db2 =>
              mkOutcome (Message (recorded amount lid)) db2
                (ev ++ [Emit "bid_update" lid amount]
                    ++ msp_alert db2 lot lid amount)
          end in
        match min_price lot with
        | Some mp =>
            if Float.truthy mp && Float.ltb amount mp
            then mkOutcome (Message (too_low mp)) db1 ev
            else accepted
        | None => accepted
        end
  end.

(** The [try] block of the BID branch (lines 161-193). *)
Definition bid_try (db : DB) (parts : list string) (phone code : string)
    : option (Outcome Answer) :=
  tok1 <- nth_error parts 1 ;;
  lid <- int_of_str tok1 ;;
  tok2 <- nth_error parts 2 ;;
  amount <- float_of_str tok2 ;;
  Some (do_bid db lid amount phone code).

(** The row of a collective lot after one more contribution
    (lines 216-219), [total] being what the column keeps of the sum. *)
Definition join (l : Lot) (uid : Z) (total : float) : Lot :=
  mkLot (lot_id l) (farmer_id l) (crop_type l) total (min_price l) (status l)
        (is_collective l) (members l ++ [uid]).

(** The COLLECTIVE branch once its fields are parsed (lines 206-233). *)
Definition do_collective (db : DB) (crop : string) (quantity : float)
    (district phone code : string) : Outcome Answer :=
  let '(user, db1, ev) :=
    get_or_create_user db phone "farmer" (Some district) code in
  match open_collective db1 crop with
  | Some collective_lot =>
      match Float.bind_real (Float.add (quantity_kg collective_lot) quantity) with
      | None => mkOutcome (ServerError "IntegrityError") db1 ev
      | Some total =>
          let joined := join collective_lot (user_id user) total in
          mkOutcome
            (Message ("You have joined the collective lot for " ++ crop
                      ++ ". Total quantity is now " ++ str_float (quantity_kg joined)
                      ++ "kg. Collective Lot ID: " ++ str_int (lot_id joined)))
            (update_lot db1 joined) ev
      end
  | None =>
      match Float.bind_real quantity with
      | None => mkOutcome (ServerError "IntegrityError") db1 ev
      | Some kept =>
          let new_collective_lot :=
            mkLot (next_id (map lot_id (lots db1))) (user_id user) crop
                  kept None "open" true [user_id user] in
          mkOutcome
            (Message ("New collective lot for " ++ crop ++ " created. Lot ID: "
                      ++ str_int (lot_id new_collective_lot) ++ "."))
            (add_lot db1 new_collective_lot) ev
      end
  end.

(** The [try] block of the COLLECTIVE branch (lines 202-233). *)
Definition collective_try (db : DB) (parts : list string) (phone code : string)
    : option (Outcome Answer) :=
  crop <- nth_error parts 1 ;;
  tok <- nth_error parts 2 ;;
  quantity <- float_of_str tok ;;
  district <- nth_error parts 3 ;;
  Some (do_collective db crop quantity district phone code).

Definition or_else (o : option (Outcome Answer)) (db : DB) (msg : string)
    : Outcome Answer :=
  match o with Some r => r | None => mkOutcome msg db [] end.

(** [request.values.get('Body', '').strip().lower()] cut at the spaces
    (lines 133, 136) *)
Definition tokens (body : string) : list string :=
  Text.split_space (Text.lower (Text.strip body)).

(** The chain of [if]/[elif] on [parts] (lines 137-238); [phone] is the
    form field [From] and [code] the login code drawn if the sender has to
    be registered. *)
Definition dispatch (db : DB) (parts : list string) (phone code : string)
    : Outcome Answer :=
  let command := hd "" parts in
  let n := Z.of_nat (List.length parts) in
  if String.eqb command "list" && (3 <=? n) then
    or_else (list_try db parts phone code) db LIST_FORMAT
  else if String.eqb command "bid" && (n =? 3) then
    or_else (bid_try db parts phone code) db BID_FORMAT
  else if String.eqb command "collective" && (3 <=? n) then
    or_else (collective_try db parts phone code) db COLLECTIVE_FORMAT
  else mkOutcome HELP db [].

(** [sms_handler] on the form fields [Body] and [From]. *)
Definition sms_handler (db : DB) (body phone code : string)
    : Outcome Answer :=
  dispatch db (tokens body) phone code.

End Handlers.

(** ** The dashboard endpoints *)

(** A response of an HTTP endpoint: [jsonify] of a message with a status
    code, [abort(code)], or an exception no handler catches. *)
Inductive Response :=
  | Json (code : Z) (message : string)
  | Abort (code : Z)
  | Uncaught (exception : string).

(** The model classes declare columns only (lines 50-73): there is no
    [db.relationship] and no backref, so a [Bid] row has no attribute
    [bidder] and a [Lot] row no attribute [farmer].  Reading either one, as
    lines 300 and 301 do, raises [AttributeError]. *)
Definition Bid_bidder (db : DB) (b : Bid) : Raise User :=
  Throw "AttributeError".

Definition Lot_farmer (db : DB) (l : Lot) : Raise User :=
  Throw "AttributeError".

(** [Bid.query.filter_by(lot_id=i, bid_amount=h).first()] *)
Definition first_bid_at (db : DB) (i : Z) (h : number) : option Bid :=
  find (fun b => (bid_lot_id b =? i) && Float.eqb (bid_amount b) (to_float h))
       (bids db).

Definition set_status (l : Lot) (s : string) : Lot :=
  mkLot (lot_id l) (farmer_id l) (crop_type l) (quantity_kg l) (min_price l)
        s (is_collective l) (members l).

Section Endpoints.

Variable str_float : float -> string.

Definition congrats (crop : string) (lot : Z) (h : number) : string :=
  "CONGRATS! Your " ++ crop ++ " lot " ++ str_int lot ++ " has been sold for Rs. "
  ++ str_number str_float h ++ " per kg.".

Definition success (lot : Z) (h : number) : string :=
  "SUCCESS! Your bid of Rs. " ++ str_number str_float h ++ " per kg for lot "
  ++ str_int lot ++ " has won the auction. The lot is now closed.".

(** [confirm_sale] (lines 288-307); [lid] is the number the route converter
    read from the path. *)
Definition confirm_sale (db : DB) (lid : Z) : Outcome Response :=
  match Lot_get db lid with
  | Throw e => mkOutcome (Uncaught e) db []
  | Return None => mkOutcome (Abort 404) db []
  | Return (Some lot) =>
      let highest := highest_bid db (lot_id lot) in
      if negb (number_truthy highest) then
        mkOutcome (Json 400 "No bids to confirm sale for this lot.") db []
      else
        let lot := set_status lot "sold" in
        let db1 := update_lot db lot in
        match first_bid_at db1 lid highest with
        | None => mkOutcome (Uncaught "AttributeError") db1 []
        | Some winning =>
            match Bid_bidder db1 winning with
            | Throw e => mkOutcome (Uncaught e) db1 []
            | Return buyer =>
                match Lot_farmer db1 lot with
                | Throw e => mkOutcome (Uncaught e) db1 []
                | Return farmer =>
                    mkOutcome (Json 200 "Sale confirmed and notifications sent.") db1
                      [SendSms (phone_number farmer)
                               (congrats (crop_type lot) (lot_id lot) highest);
                       SendSms (phone_number buyer)
                               (success (lot_id lot) highest)]
                end
            end
        end
  end.

(** One entry of the list [get_all_lots] returns. *)
Record LotView := mkLotView {
  view_id : Z;
  view_crop_type : string;
  view_quantity_kg : float;
  view_min_price : option float;
  view_highest_bid : number
}.

(** [get_all_lots] (lines 112-127) *)
Definition get_all_lots (db : DB) : list LotView :=
  map (fun lot => mkLotView (lot_id lot) (crop_type lot) (quantity_kg lot)
                            (min_price lot) (highest_bid db (lot_id lot)))
      (filter (fun l => String.eqb (status l) "open") (lots db)).

Definition nl : string := String (ascii_of_nat 10) "".

Definition contract_template (farmer buyer : User) (lot : Lot) (h : number)
    : string :=
  nl ++ "    --- CONTRACT FOR ADVANCE SALE ---" ++ nl
  ++ "    " ++ nl
  ++ "    This contract is for the advance sale of agricultural produce." ++ nl
  ++ "    " ++ nl
  ++ "    1. Seller (Farmer): " ++ phone_number farmer ++ nl
  ++ "    2. Buyer: " ++ phone_number buyer ++ nl
  ++ "    " ++ nl
  ++ "    3. Produce Details:" ++ nl
  ++ "        - Crop Type: " ++ crop_type lot ++ nl
  ++ "        - Quantity: " ++ str_float (quantity_kg lot) ++ " kg" ++ nl
  ++ "    " ++ nl
  ++ "    4. Price:" ++ nl
  ++ "        - Agreed Rate: Rs. " ++ str_number str_float h ++ " per kg" ++ nl
  ++ "        - Total Amount: Rs. "
  ++ str_float (Float.mul (to_float h) (quantity_kg lot)) ++ nl
  ++ "    " ++ nl
  ++ "    5. Terms:" ++ nl
  ++ "        - Payment to be made upon delivery." ++ nl
  ++ "        - Quality to be verified upon arrival." ++ nl
  ++ "    " ++ nl
  ++ "    This is a binding agreement." ++ nl
  ++ "    ".

(** [generate_contract] (lines 250-284); the 200 response carries the
    contract text. *)
Definition generate_contract (db : DB) (lid : Z) : Response :=
  match Lot_get db lid with
  | Throw e => Uncaught e
  | Return None => Abort 404
  | Return (Some lot) =>
      let highest := highest_bid db (lot_id lot) in
      match first_bid_at db (lot_id lot) highest with
      | None => Json 404 "No bids on this lot yet."
      | Some buyer_bid =>
          match get_user db (farmer_id lot), get_user db (bidder_id buyer_bid) with
          | Some farmer, Some buyer =>
              Json 200 (contract_template farmer buyer lot highest)
          | _, _ => Uncaught "AttributeError"
          end
      end
  end.

End Endpoints.

(** ** The builtins on 7-bit text: [int(s)], [float(s)], [repr] of a float

    These instantiate the parameters of the handlers so that a request can
    be run from its text.  [float_of_str] rounds the decimal numeral to the
    nearest binary64, ties to even; [str_float] prints the shortest numeral
    that reads back as the same float. *)

Module Py.

Definition is_digit (c : ascii) : bool :=
  let n := nat_of_ascii c in ((48 <=? n) && (n <=? 57))%nat.

Definition digit_val (c : ascii) : Z := Z.of_nat (nat_of_ascii c) - 48.

(** An underscore is allowed between two digits only; it is dropped. *)
Fixpoint drop_underscores (prev_digit : bool) (s : list ascii)
    : option (list ascii) :=
  match s with
  | [] => Some []
  | c :: r =>
      if Ascii.eqb c "_"%char then
        if prev_digit && match r with d :: _ => is_digit d | [] => false end
        then drop_underscores false r
        else None
      else option_map (cons c) (drop_underscores (is_digit c) r)
  end.

(** The leading digits of [s], their value appended to [acc], their number,
    and the rest. *)
Fixpoint digits (acc : Z) (n : Z) (s : list ascii) : Z * Z * list ascii :=
  match s with
  | c :: r => if is_digit c then digits (10 * acc + digit_val c) (n + 1) r
              else (acc, n, s)
  | [] => (acc, n, s)
  end.

Definition sign (s : list ascii) : bool * list ascii :=
  match s with
  | c :: r => if Ascii.eqb c "-"%char then (true, r)
              else if Ascii.eqb c "+"%char then (false, r)
              else (false, s)
  | [] => (false, s)
  end.

Definition chars (s : string) : list ascii := list_ascii_of_string s.

(** The white space [int] and [float] skip around a numeral: TAB..CR and
    the space. *)
Definition is_space (c : ascii) : bool :=
  let n := nat_of_ascii c in
  ((9 <=? n) && (n <=? 13))%nat || (n =? 32)%nat.

Fixpoint skip_space (s : list ascii) : list ascii :=
  match s with
  | c :: r => if is_space c then skip_space r else s
  | [] => []
  end.

Definition trimmed (s : string) : list ascii :=
  rev (skip_space (rev (skip_space (chars s)))).

(** [int(s)], base ten *)
Definition int_of_str (s : string) : option Z :=
  s <- drop_underscores false (trimmed s) ;;
  let '(neg, s) := sign s in
  let '(v, n, rest) := digits 0 0 s in
  match rest with
  | [] => if 0 <? n then Some (if neg then - v else v) else None
  | _ :: _ => None
  end.

(** The binary64 nearest to [m * 10^e10], for [0 <= m]. *)
Definition of_decimal (neg : bool) (m e10 : Z) : float :=
  if m =? 0 then S754_zero neg
  else if 309 <=? e10 then S754_infinity neg
  else if Z.log2 m / 3 + 1 + e10 <? -325 then S754_zero neg
  else if 0 <=? e10 then
    binary_normalize Float.prec Float.emax
      (if neg then - (m * 10 ^ e10) else m * 10 ^ e10) 0 false
  else
    let d := 10 ^ (- e10) in
    let s := Z.max 0 (64 + Z.log2 d - Z.log2 m) in
    let q := (m * 2 ^ s) / d in
    let r := (m * 2 ^ s) mod d in
    binary_round_aux Float.prec Float.emax neg q (- s)
      (if r =? 0 then loc_Exact else loc_Inexact (2 * r ?= d)).

(** The exponent part [e[sign]digits], if [s] is one. *)
Definition exponent (s : list ascii) : option Z :=
  match s with
  | [] => Some 0
  | c :: r =>
      if Ascii.eqb c "e"%char || Ascii.eqb c "E"%char then
        let '(neg, r) := sign r in
        let '(v, n, rest) := digits 0 0 r in
        match rest with
        | [] => if 0 <? n then Some (if neg then - v else v) else None
        | _ :: _ => None
        end
      else None
  end.

(** [float(s)] *)
Definition float_of_str (s : string) : option float :=
  s <- drop_underscores false (trimmed s) ;;
  let '(neg, s) := sign s in
  let word := Text.lower (string_of_list_ascii s) in
  if String.eqb word "inf" || String.eqb word "infinity"
  then Some (S754_infinity neg)
  else if String.eqb word "nan" then Some S754_nan
  else
    let '(i, ni, s) := digits 0 0 s in
    let '(m, nf, s) :=
      match s with
      | c :: r => if Ascii.eqb c "."%char then digits i 0 r else (i, 0, s)
      | [] => (i, 0, s)
      end in
    if 0 <? ni + nf then
      e <- exponent s ;;
      Some (of_decimal neg m (e - nf))
    else None.

(** *** [repr] *)

(** [x < 10^p] for [x = n / d] *)
Definition below_pow10 (n d p : Z) : bool :=
  if 0 <=? p then n <? 10 ^ p * d else n * 10 ^ (- p) <? d.

(** The least [p] from [p0] on with [n / d < 10^p]. *)
Fixpoint decimal_point (fuel : nat) (n d p0 : Z) : Z :=
  match fuel with
  | O => p0
  | S k => if below_pow10 n d p0 then p0 else decimal_point k n d (p0 + 1)
  end.

Fixpoint digit_string (fuel : nat) (c : Z) (acc : string) : string :=
  match fuel with
  | O => acc
  | S k =>
      let acc := String (ascii_of_nat (Z.to_nat (48 + c mod 10))) acc in
      if c <? 10 then acc else digit_string k (c / 10) acc
  end.

Fixpoint strip_zeros (c : Z) (fuel : nat) : Z :=
  match fuel with
  | O => c
  | S k => if (c mod 10 =? 0) && negb (c =? 0) then strip_zeros (c / 10) k else c
  end.

(** The shortest [c] of [k] digits, [k] from [17 - fuel] up, such that
    [c * 10^(p - k)] reads back as [x = n / d]; of two of one length the one
    nearer to [x]. *)
Fixpoint shortest (fuel : nat) (x : float) (n d p k : Z) : Z * Z :=
  let num := if 0 <=? k - p then n * 10 ^ (k - p) else n in
  let den := if 0 <=? k - p then d else d * 10 ^ (p - k) in
  let lo := num / den in
  let r := num mod den in
  let near := if 2 * r <? den then lo else lo + 1 in
  let far := if 2 * r <? den then lo + 1 else lo in
  let reads c :=
    match x, of_decimal false c (p - k) with
    | S754_finite _ m e, S754_finite _ m' e' => Pos.eqb m m' && (e =? e')
    | _, _ => false
    end in
  match fuel with
  | O => (near, p - k)
  | S f =>
      if reads near then (near, p - k)
      else if (negb (r =? 0)) && reads far then (far, p - k)
      else shortest f x n d p (k + 1)
  end.

Fixpoint zeros (n : nat) : string :=
  match n with O => "" | S k => String "0" (zeros k) end.

(** [repr] of the positive finite float [m * 2^e]. *)
Definition repr_finite (m : positive) (e : Z) : string :=
  let n := if 0 <=? e then Zpos m * 2 ^ e else Zpos m in
  let d := if 0 <=? e then 1 else 2 ^ (- e) in
  let b := Z.log2 (Zpos m) + 1 + e in
  let p := decimal_point 4 n d ((b * 30103) / 100000 - 1) in
  let '(c, e10) := shortest 16 (S754_finite false m e) n d p 1 in
  let c' := strip_zeros c 400 in
  let ds := digit_string 400 c' "" in
  let len := Z.of_nat (String.length ds) in
  let e10 := e10 + (Z.of_nat (String.length (digit_string 400 c "")) - len) in
  let decpt := len + e10 in
  if (decpt <=? -4) || (16 <? decpt) then
    let ex := decpt - 1 in
    let es := digit_string 400 (Z.abs ex) "" in
    String.substring 0 1 ds
    ++ (if 1 <? len then "." ++ String.substring 1 (String.length ds - 1) ds else "")
    ++ "e" ++ (if ex <? 0 then "-" else "+")
    ++ (if Z.abs ex <? 10 then "0" else "") ++ es
  else if decpt <=? 0 then "0." ++ zeros (Z.to_nat (- decpt)) ++ ds
  else if len <=? decpt then ds ++ zeros (Z.to_nat (decpt - len)) ++ ".0"
  else String.substring 0 (Z.to_nat decpt) ds ++ "."
       ++ String.substring (Z.to_nat decpt) (String.length ds - Z.to_nat decpt) ds.

(** [repr(x)], which is what an f-string puts for a float *)
Definition str_float (x : float) : string :=
  match x with
  | S754_nan => "nan"
  | S754_infinity s => if s then "-inf" else "inf"
  | S754_zero s => if s then "-0.0" else "0.0"
  | S754_finite s m e => (if s then "-" else "") ++ repr_finite m e
  end.

End Py.

(** ** Running requests *)

(** The handlers with Python's own builtins. *)
Definition py_sms_handler : DB -> string -> string -> string -> Outcome Answer :=
  sms_handler Py.float_of_str Py.int_of_str Py.str_float.


(** An inbound SMS: the two form fields and the login code the random
    generator would hand to a new sender. *)
Record Request := mkRequest {
  req_body : string;
  req_from : string;
  req_code : string
}.

Section Run.

Variable float_of_str : string -> option float.
Variable int_of_str : string -> option Z.
Variable str_float : float -> string.

Definition handle (db : DB) (r : Request) : Outcome Answer :=
  sms_handler float_of_str int_of_str str_float db
              (req_body r) (req_from r) (req_code r).

(** The database after a sequence of inbound messages. *)
Definition run (db : DB) (rs : list Request) : DB :=
  fold_left (fun d r => db_after (handle d r)) rs db.

(** The responses to a sequence of inbound messages, in order. *)
Fixpoint replies (db : DB) (rs : list Request) : list Answer :=
  match rs with
  | [] => []
  | r :: rest => reply (handle db r) :: replies (db_after (handle db r)) rest
  end.

End Run.

Definition py_run : DB -> list Request -> DB :=
  run Py.float_of_str Py.int_of_str Py.str_float.

Definition py_replies : DB -> list Request -> list Answer :=
  replies Py.float_of_str Py.int_of_str Py.str_float.

(** ** The remaining endpoints and the notification gateway *)

(** The answer of [login]: 200 with the user's id and type, or 401. *)
Inductive LoginResponse :=
  | LoginOk (message : string) (id : Z) (type : string)
  | LoginFailed (message : string).

(** [User.query.filter_by(phone_number=p, login_code=c).first()] *)
Definition user_by_credentials (db : DB) (p c : string) : option User :=
  find (fun u => String.eqb (phone_number u) p && String.eqb (login_code u) c)
       (users db).

(** [login] (lines 310-321).  [phone] and [code] are [data.get(...)] of the
    two keys of the JSON body, [None] for a key that is missing; a column
    compared with [None] matches no row, as every row has both columns
    filled. *)
Definition login (db : DB) (phone code : option string) : LoginResponse :=
  match phone, code with
  | Some p, Some c =>
      match user_by_credentials db p c with
      | Some user => LoginOk "Login successful" (user_id user) (user_type user)
      | None => LoginFailed "Invalid credentials"
      end
  | _, _ => LoginFailed "Invalid credentials"
  end.

(** [HISTORICAL_PRICES] (lines 44-47) *)
Definition HISTORICAL_PRICES : list (string * list (string * list Z)) :=
  [("mumbai", [("wheat", [2300; 2350; 2400]); ("rice", [2500; 2550; 2600])]);
   ("delhi", [("wheat", [2250; 2300; 2320]); ("rice", [2450; 2480; 2510])])].

(** The answer of [get_historical_prices]: 200 with the series, or 404. *)
Inductive PricesResponse :=
  | PricesOk (historical_prices : list Z)
  | PricesNotFound (message : string).

(** [get_historical_prices] (lines 243-248) *)
Definition get_historical_prices (crop_type district : string) : PricesResponse :=
  let by_crop :=
    match dict_get HISTORICAL_PRICES (Text.lower district) with
    | Some d => d
    | None => []
    end in
  match dict_get by_crop (Text.lower crop_type) with
  | Some (p :: ps) => PricesOk (p :: ps)
  | _ => PricesNotFound "No historical data available for this crop and district."
  end.

(** The three settings read from the environment (lines 28-30), [None] for
    a variable that is not set. *)
Record Settings := mkSettings {
  TWILIO_ACCOUNT_SID : option string;
  TWILIO_AUTH_TOKEN : option string;
  TWILIO_PHONE_NUMBER : option string
}.

(** The truth value of a setting: set, and not the empty string. *)
Definition is_set (v : option string) : bool :=
  match v with Some s => negb (String.eqb s "") | None => false end.

(** Whether line 33 builds a client. *)
Definition client (cfg : Settings) : bool :=
  is_set (TWILIO_ACCOUNT_SID cfg) && is_set (TWILIO_AUTH_TOKEN cfg).

(** What one call of [send_sms] did: the calls of [client.messages.create],
    as (to, from_, body), and the lines printed. *)
Record Sent := mkSent {
  created : list (string * string * string);
  printed : list string
}.

(** [try: body except Exception as e: handler(e)] *)
Definition try_except {A : Type} (body : Raise A) (handler : string -> Raise A)
    : Raise A :=
  match body with
  | Return a => Return a
  | Throw e => handler e
  end.

(** [send_sms] (lines 90-104).  [create to from_ body] is the outcome of the
    provider call: it returns, or raises an exception with the given text. *)
Definition send_sms (cfg : Settings)
    (create : string -> string -> string -> Raise unit)
    (to message : string) : Raise Sent :=
  if negb (client cfg) || negb (is_set (TWILIO_PHONE_NUMBER cfg)) then
    Return (mkSent [] ["SMS not sent (Twilio not configured): To: " ++ to
                       ++ ", Msg: " ++ message])
  else
    let from_ := match TWILIO_PHONE_NUMBER cfg with Some s => s | None => "" end in
    try_except
      (match create to from_ message with
       | Return _ =>
           Return (mkSent [(to, from_, message)]
                          ["SMS sent successfully to " ++ to])
       | Throw e => Throw e
       end)
      (fun e => Return (mkSent [(to, from_, message)]
                               ["Error sending SMS to " ++ to ++ ": " ++ e])).

(** ** The state machine of the service *)

(** The requests that change the database. *)
Inductive Action :=
  | Sms (r : Request)
  | ConfirmSale (lid : Z).

Section Transitions.

Variable float_of_str : string -> option float.
Variable int_of_str : string -> option Z.
Variable str_float : float -> string.

Definition step (db : DB) (a : Action) : DB :=
  match a with
  | Sms r => db_after (handle float_of_str int_of_str str_float db r)
  | ConfirmSale lid => db_after (confirm_sale str_float db lid)
  end.

(** The database after a sequence of requests. *)
Definition exec (db : DB) (actions : list Action) : DB :=
  fold_left step actions db.

(** The calls one request makes. *)
Definition calls (db : DB) (a : Action) : list Event :=
  match a with
  | Sms r => trace (handle float_of_str int_of_str str_float db r)
  | ConfirmSale lid => trace (confirm_sale str_float db lid)
  end.

(** The calls a sequence of requests makes, in order. *)
Fixpoint events (db : DB) (actions : list Action) : list Event :=
  match actions with
  | [] => []
  | a :: rest => (calls db a ++ events (step db a) rest)%list
  end.

End Transitions.

(** [e] is a welcome SMS to [phone]. *)
Definition is_welcome (phone : string) (e : Event) : bool :=
  match e with
  | SendSms to message =>
      String.eqb to phone && String.prefix "Welcome to Farmer Market!" message
  | Emit _ _ _ => false
  end.

(** Whether [phone] has a row in the user table. *)
Definition registered (db : DB) (phone : string) : bool :=
  match user_by_phone db phone with Some _ => true | None => false end.

Definition py_exec : DB -> list Action -> DB :=
  exec Py.float_of_str Py.int_of_str Py.str_float.

(** Some row of the user table has the key [i]. *)
Definition user_exists (db : DB) (i : Z) : Prop :=
  exists u, In u (users db) /\ user_id u = i.

(** What the requests maintain: phone numbers and keys are unique, every
    reference to a user has its row, every lot is open, a collective lot has
    no minimum price and its farmer heads its membership list, the two REAL
    columns hold what they were given, and the bid table is empty. *)
Record consistent (db : DB) : Prop := mkConsistent {
  unique_phones : NoDup (map phone_number (users db));
  unique_user_ids : NoDup (map user_id (users db));
  unique_lot_ids : NoDup (map lot_id (lots db));
  farmer_exists : forall l, In l (lots db) -> user_exists db (farmer_id l);
  members_exist :
    forall l m, In l (lots db) -> In m (members l) -> user_exists db m;
  all_open : forall l, In l (lots db) -> status l = "open";
  lot_shape :
    forall l, In l (lots db) ->
      if is_collective l
      then min_price l = None /\ hd_error (members l) = Some (farmer_id l)
      else members l = [];
  quantity_kept :
    forall l, In l (lots db) ->
      Float.bind_real (quantity_kg l) = Some (quantity_kg l);
  price_kept :
    forall l mp, In l (lots db) -> min_price l = Some mp ->
      Float.bind_real mp = Some mp;
  no_bids : bids db = []
}.

(** [db'] has the rows of [db] and maybe more: the users and the bids of
    [db] unchanged at the front, and the lots of [db], with their keys, at
    the front of the lot table. *)
Definition grows_to (db db' : DB) : Prop :=
  (exists us, users db' = (users db ++ us)%list)
  /\ (exists bs, bids db' = (bids db ++ bs)%list)
  /\ (exists ids, map lot_id (lots db') = (map lot_id (lots db) ++ ids)%list).

(** ** Scenarios *)

Definition farmer_phone : string := "+919800000001".
Definition buyer_phone : string := "+919800000002".
Definition farmer_code : string := "111111111111".
Definition buyer_code : string := "222222222222".

(** A farmer lists wheat with an explicit minimum price of 0. *)
Definition db_zero_minimum : DB :=
  py_run empty_db [mkRequest "LIST wheat 500 0" farmer_phone farmer_code].

(** A farmer lists wheat at the MSP. *)
Definition db_listed : DB :=
  py_run empty_db [mkRequest "LIST wheat 500" farmer_phone farmer_code].

(** A farmer lists wheat with a minimum price below the MSP. *)
Definition db_low_minimum : DB :=
  py_run empty_db [mkRequest "LIST wheat 500 2000" farmer_phone farmer_code].

(** 25.5 as a binary64: 51 * 2^-1. *)
Definition kg_25_5 : float := S754_finite false 7177611906121728 (-48).

(** Three contributions of wheat, the last two from one farmer. *)
Definition pool_1 : Request :=
  mkRequest "COLLECTIVE wheat 100 delhi" farmer_phone farmer_code.
Definition pool_2 : Request :=
  mkRequest "COLLECTIVE wheat 50 delhi" buyer_phone buyer_code.
Definition pool_3 : Request :=
  mkRequest "COLLECTIVE wheat 25.5 delhi" buyer_phone buyer_code.

(** A farmer lists wheat at the MSP, a buyer bids 2300 on the lot, and the
    sale is confirmed twice. *)
Definition auction : list Action :=
  [Sms (mkRequest "LIST wheat 500" farmer_phone farmer_code);
   Sms (mkRequest "BID 1 2300" buyer_phone buyer_code);
   ConfirmSale 1;
   ConfirmSale 1].

(** A farmer lists wheat below the MSP and a buyer bids between the two. *)
Definition low_auction : list Request :=
  [mkRequest "LIST wheat 500 2000" farmer_phone farmer_code;
   mkRequest "BID 1 2100" buyer_phone buyer_code].

(** The lot of [db_listed]. *)
Definition listed_wheat : Lot :=
  mkLot 1 1 "wheat" (Float.of_Z 500) (Some (Float.of_Z 2275)) "open" false [].

(** The lots of [db_low_minimum] and of [db_zero_minimum]. *)
Definition low_wheat : Lot :=
  mkLot 1 1 "wheat" (Float.of_Z 500) (Some (Float.of_Z 2000)) "open" false [].
Definition zero_wheat : Lot :=
  mkLot 1 1 "wheat" (Float.of_Z 500) (Some Float.zero) "open" false [].

(** The two infinities, [float('inf')] and [float('-inf')]. *)
Definition inf : float := S754_infinity false.
Definition minus_inf : float := S754_infinity true.

(** A farmer pools an infinite quantity of wheat, and then takes it back. *)
Definition pool_inf : Request :=
  mkRequest "COLLECTIVE wheat inf delhi" farmer_phone farmer_code.
Definition pool_minus_inf : Request :=
  mkRequest "COLLECTIVE wheat -inf delhi" farmer_phone farmer_code.

(** A bid table written out, to put the queries that read it to work (the
    service itself stores no bid): two bids on lot 1 and a higher one on
    lot 2. *)
Definition ledger : DB :=
  mkDB [] []
       [mkBid 1 1 2 (Float.of_Z 2300); mkBid 2 1 3 (Float.of_Z 2400);
        mkBid 3 2 2 (Float.of_Z 9000)].

(** The amount is below the lot's minimum price. *)
Definition below_minimum (lot : Lot) (amount : float) : Prop :=
  exists mp, min_price lot = Some mp /\ Float.ltb amount mp = true.

(** A bid on lot [lid] passes the checks of lines 169 and 174: the lot
    exists, is open, and the amount is not below a minimum price that counts. *)
Definition bid_accepted (db : DB) (lid : Z) (amount : float) (lot : Lot) : Prop :=
  Lot_get db lid = Return (Some lot) /\ status lot = "open"
  /\ forall mp, min_price lot = Some mp ->
                Float.truthy mp && Float.ltb amount mp = false.

(** The events of registering the sender, if it has to be. *)
Definition registration (db : DB) (phone code : string) : list Event :=
  match user_by_phone db phone with
  | Some _ => []
  | None => [SendSms phone (welcome code)]
  end.

(** The id the sender has once registered: its own if it is known, the
    next key of the user table if not. *)
Definition sender_id (db : DB) (phone : string) : Z :=
  match user_by_phone db phone with
  | Some u => user_id u
  | None => next_id (map user_id (users db))
  end.

(** [r] is a well-formed COLLECTIVE for [crop] that declares quantity [q]:
    four tokens or more, the third a number. *)
Definition collective_request (float_of_str : string -> option float)
    (crop : string) (r : Request) (q : float) : Prop :=
  exists tq district rest,
    tokens (req_body r) = "collective" :: crop :: tq :: district :: rest
    /\ float_of_str tq = Some q.

(** The ways a bid on lot [lid] fails a precondition, with the response
    each one gets: a key no row can have, no such lot, a lot that is not
    open, an amount below a minimum price that is set and not zero. *)
Inductive bid_rejected (str_float : float -> string) (db : DB) (lid : Z)
    (amount : float) : Answer -> Prop :=
  | key_out_of_range :
      in_int64 lid = false ->
      bid_rejected str_float db lid amount (ServerError "OverflowError")
  | no_such_lot :
      Lot_get db lid = Return None ->
      bid_rejected str_float db lid amount NOT_AVAILABLE
  | lot_not_open lot :
      Lot_get db lid = Return (Some lot) -> status lot <> "open" ->
      bid_rejected str_float db lid amount NOT_AVAILABLE
  | bid_too_low lot mp :
      Lot_get db lid = Return (Some lot) -> status lot = "open" ->
      min_price lot = Some mp -> Float.truthy mp = true ->
      Float.ltb amount mp = true ->
      bid_rejected str_float db lid amount (too_low str_float mp).

(** * Properties *)

(** ** Numbers in a REAL column *)

Lemma stored_idempotent x : Float.stored (Float.stored x) = Float.stored x.
Proof. destruct x; reflexivity. Qed.

Lemma bind_real_kept x y :
  Float.bind_real x = Some y -> Float.bind_real y = Some y.
Proof. destruct x; cbn; intro H; inversion H; reflexivity. Qed.

Lemma bind_real_stored x y :
  Float.bind_real x = Some y -> y = Float.stored x /\ Float.is_nan x = false.
Proof.
  unfold Float.bind_real. destruct (Float.is_nan x); intro H; inversion H.
  split; reflexivity.
Qed.

Lemma bind_real_number x :
  Float.is_nan x = false -> Float.bind_real x = Some (Float.stored x).
Proof. unfold Float.bind_real. intros ->. reflexivity. Qed.

Lemma bind_real_nan x : Float.is_nan x = true -> Float.bind_real x = None.
Proof. unfold Float.bind_real. intros ->. reflexivity. Qed.

(** Adding to what the column gives back, or to what was put in, leaves the
    same number in the column. *)
Lemma stored_add x y :
  Float.stored (Float.add (Float.stored x) y) = Float.stored (Float.add x y).
Proof.
  destruct x as [s| | |]; try reflexivity.
  destruct s, y as [[|]| | |]; reflexivity.
Qed.

Lemma stored_fold_add qs x :
  Float.stored (fold_left Float.add qs (Float.stored x))
  = Float.stored (fold_left Float.add qs x).
Proof.
  revert x. induction qs as [|q qs IH]; intro x; cbn [fold_left].
  - apply stored_idempotent.
  - rewrite <- (IH (Float.add (Float.stored x) q)), stored_add. apply IH.
Qed.

(** ** Lists of rows *)

Lemma find_snoc {A : Type} (f : A -> bool) (l : list A) (x : A) :
  find f l = None -> find f (l ++ [x]) = if f x then Some x else None.
Proof.
  induction l as [|a l IH]; cbn; [ reflexivity | ].
  destruct (f a); [ discriminate | exact IH ].
Qed.

Lemma find_snoc_some {A : Type} (f : A -> bool) (l : list A) (x y : A) :
  find f l = Some y -> find f (l ++ [x]) = Some y.
Proof.
  induction l as [|a l IH]; cbn; [ discriminate | ].
  destruct (f a); [ auto | exact IH ].
Qed.

(** Writing a row back that still matches the query puts it where the
    query finds it. *)
Lemma find_update (f : Lot -> bool) (l : list Lot) (old new : Lot) :
  find f l = Some old -> f new = true ->
  find f (map (fun x => if lot_id x =? lot_id old then new else x) l) = Some new.
Proof.
  intros Hf Hn. induction l as [|a l IH]; cbn in *; [ discriminate | ].
  destruct (f a) eqn:Ha.
  - inversion Hf; subst a. rewrite Z.eqb_refl, Hn. reflexivity.
  - destruct (lot_id a =? lot_id old).
    + rewrite Hn. reflexivity.
    + rewrite Ha. exact (IH Hf).
Qed.

Lemma string_neq_eqb (a b : string) : a <> b -> String.eqb a b = false.
Proof. intro H. apply String.eqb_neq. exact H. Qed.

Lemma get_lot_id db lid lot : get_lot db lid = Some lot -> lot_id lot = lid.
Proof.
  intro H. apply find_some in H. destruct H as [_ H].
  apply Z.eqb_eq. exact H.
Qed.

Lemma Lot_get_some db lid lot :
  Lot_get db lid = Return (Some lot) ->
  in_int64 lid = true /\ get_lot db lid = Some lot /\ lot_id lot = lid.
Proof.
  unfold Lot_get. destruct (in_int64 lid); [ | discriminate ].
  intro H. inversion H as [Hg]. split; [ reflexivity | ].
  split; [ reflexivity | exact (get_lot_id _ _ _ Hg) ].
Qed.

Lemma Lot_get_same_lots db db' lid :
  lots db' = lots db -> Lot_get db' lid = Lot_get db lid.
Proof. intro H. unfold Lot_get, get_lot. rewrite H. reflexivity. Qed.

(** ** Registering the sender *)

(** Registering the sender touches the user table only, and only by
    appending. *)
Lemma get_or_create_user_spec db phone utype dist code :
  (exists u, user_by_phone db phone = Some u
             /\ get_or_create_user db phone utype dist code = (u, db, []))
  \/ (user_by_phone db phone = None
      /\ get_or_create_user db phone utype dist code
         = (new_user db phone utype dist code,
            add_user db (new_user db phone utype dist code),
            [SendSms phone (welcome code)])).
Proof.
  unfold get_or_create_user.
  destruct (user_by_phone db phone) as [u|]; [left; eauto | right; auto].
Qed.

Lemma get_or_create_user_lots db phone utype dist code :
  lots (snd (fst (get_or_create_user db phone utype dist code))) = lots db
  /\ bids (snd (fst (get_or_create_user db phone utype dist code))) = bids db.
Proof.
  destruct (get_or_create_user_spec db phone utype dist code)
    as [[u [_ Hg]] | [_ Hg]]; rewrite Hg; split; reflexivity.
Qed.

Lemma get_or_create_user_trace db phone utype dist code :
  snd (get_or_create_user db phone utype dist code) = registration db phone code.
Proof.
  unfold get_or_create_user, registration.
  destruct (user_by_phone db phone); reflexivity.
Qed.

Lemma registration_sends_sms db phone code name l a :
  ~ In (Emit name l a) (registration db phone code).
Proof.
  unfold registration. destruct (user_by_phone db phone); cbn; [ tauto | ].
  intros [H | []]. discriminate H.
Qed.

(** Once registered, a sender keeps its id. *)
Lemma registered_sender db phone utype dist code :
  let '(u, db1, _) := get_or_create_user db phone utype dist code in
  user_id u = sender_id db phone
  /\ user_by_phone db1 phone = Some u
  /\ lots db1 = lots db /\ bids db1 = bids db.
Proof.
  unfold get_or_create_user, sender_id.
  destruct (user_by_phone db phone) as [u|] eqn:Hu.
  - repeat split; assumption || reflexivity.
  - repeat split; try reflexivity.
    unfold user_by_phone, add_user. cbn [users].
    rewrite (find_snoc _ _ _ Hu). cbn. rewrite String.eqb_refl. reflexivity.
Qed.


(** ** The commands of the webhook *)

Section Commands.

Variable float_of_str : string -> option float.
Variable int_of_str : string -> option Z.
Variable str_float : float -> string.

Let handler := sms_handler float_of_str int_of_str str_float.

(** *** BID *)

Lemma bid_dispatch db t1 t2 phone code :
  dispatch float_of_str int_of_str str_float db ["bid"; t1; t2] phone code
  = or_else (bid_try float_of_str int_of_str str_float db ["bid"; t1; t2] phone code)
            db BID_FORMAT.
Proof. reflexivity. Qed.

Lemma bid_parsed db body phone code t1 t2 lid amount :
  tokens body = ["bid"; t1; t2] ->
  int_of_str t1 = Some lid ->
  float_of_str t2 = Some amount ->
  handler db body phone code = do_bid str_float db lid amount phone code.
Proof.
  intros Htok H1 H2. subst handler. unfold sms_handler.
  rewrite Htok, bid_dispatch. unfold bid_try, bind. cbn [nth_error].
  rewrite H1, H2. reflexivity.
Qed.

(** Whatever the lot and the amount, a BID leaves the database as the
    registration of its sender left it, and makes no call after it. *)
Lemma do_bid_stores_nothing db lid amount phone code :
  exists r,
    do_bid str_float db lid amount phone code
    = mkOutcome r (snd (fst (get_or_create_user db phone "buyer" None code)))
                (registration db phone code).
Proof.
  rewrite <- (get_or_create_user_trace db phone "buyer" None code).
  unfold do_bid.
  destruct (get_or_create_user db phone "buyer" None code) as [[u db1] ev].
  cbn [fst snd].
  destruct (Lot_get db1 lid) as [[lot|]|e]; [ | eexists; reflexivity .. ].
  destruct (negb _); [ eexists; reflexivity | ].
  unfold insert_bid. cbn [timestamp_default bind_datetime].
  destruct (min_price lot) as [mp|]; [ | eexists; reflexivity ].
  destruct (_ && _); eexists; reflexivity.
Qed.

(** A rejected bid stops right after the sender is registered. *)
Lemma do_bid_rejected db lid amount phone code r :
  bid_rejected str_float db lid amount r ->
  do_bid str_float db lid amount phone code
  = mkOutcome r
      (snd (fst (get_or_create_user db phone "buyer" None code)))
      (snd (get_or_create_user db phone "buyer" None code)).
Proof.
  intro Hrej. unfold do_bid.
  pose proof (get_or_create_user_lots db phone "buyer" None code) as [Hl _].
  destruct (get_or_create_user db phone "buyer" None code) as [[u db1] ev].
  cbn [fst snd] in *. rewrite (Lot_get_same_lots _ _ lid Hl).
  destruct Hrej as [Hk | Hs | lot Hs Hst | lot mp Hs Hst Hmp Ht Hlt].
  - unfold Lot_get. rewrite Hk. reflexivity.
  - rewrite Hs. reflexivity.
  - rewrite Hs, (string_neq_eqb _ _ Hst). reflexivity.
  - rewrite Hs, Hst, Hmp, Ht, Hlt. reflexivity.
Qed.

(** An accepted bid reaches the commit of line 180, which raises. *)
Lemma do_bid_accepted db lid amount phone code lot :
  bid_accepted db lid amount lot ->
  do_bid str_float db lid amount phone code
  = mkOutcome (ServerError "StatementError")
      (snd (fst (get_or_create_user db phone "buyer" None code)))
      (registration db phone code).
Proof.
  intros [Hs [Hst Hmp]].
  rewrite <- (get_or_create_user_trace db phone "buyer" None code).
  unfold do_bid.
  pose proof (get_or_create_user_lots db phone "buyer" None code) as [Hl _].
  destruct (get_or_create_user db phone "buyer" None code) as [[u db1] ev].
  cbn [fst snd] in *. rewrite (Lot_get_same_lots _ _ lid Hl), Hs, Hst.
  rewrite String.eqb_refl. cbn [negb].
  unfold insert_bid. cbn [timestamp_default bind_datetime].
  destruct (min_price lot) as [mp|]; [ rewrite (Hmp mp eq_refl) | ]; reflexivity.
Qed.

(** C1.  A BID on an open lot for an amount strictly below the lot's
    minimum price stores no bid and emits no event (so no bid_update),
    whatever the minimum price is.  Below a minimum price that is not zero
    the reply is [Your bid is too low ...]; a minimum price of 0 does not
    count for line 174 and the bid goes on to the commit of line 180, which
    raises before anything is stored or emitted. *)
Theorem bid_below_minimum_is_not_stored :
  forall db body phone code t1 t2 lid amount lot mp,
    tokens body = ["bid"; t1; t2] ->
    int_of_str t1 = Some lid ->
    float_of_str t2 = Some amount ->
    Lot_get db lid = Return (Some lot) ->
    status lot = "open" ->
    min_price lot = Some mp ->
    Float.ltb amount mp = true ->
    let o := handler db body phone code in
    bids (db_after o) = bids db
    /\ lots (db_after o) = lots db
    /\ (forall name l a, ~ In (Emit name l a) (trace o))
    /\ reply o = if Float.truthy mp
                 then Message (too_low str_float mp)
                 else ServerError "StatementError".
Proof.
  intros db body phone code t1 t2 lid amount lot mp Htok H1 H2 Hlot Hst Hmp Hlt.
  cbv zeta. rewrite (bid_parsed _ _ _ _ _ _ _ _ Htok H1 H2).
  pose proof (get_or_create_user_lots db phone "buyer" None code) as [Hl Hb].
  pose proof (get_or_create_user_trace db phone "buyer" None code) as Ht.
  destruct (Float.truthy mp) eqn:Hmt.
  - rewrite (do_bid_rejected db lid amount phone code _
               (bid_too_low _ _ _ _ lot mp Hlot Hst Hmp Hmt Hlt)).
    cbn [db_after trace reply]. rewrite Ht.
    repeat (split; [ assumption || apply registration_sends_sms | ]).
    reflexivity.
  - rewrite (do_bid_accepted db lid amount phone code lot).
    + cbn [db_after trace reply].
      repeat (split; [ assumption || apply registration_sends_sms | ]).
      reflexivity.
    + split; [ exact Hlot | ]. split; [ exact Hst | ].
      intros mp' Hmp'. rewrite Hmp in Hmp'. inversion Hmp'; subst mp'.
      rewrite Hmt. reflexivity.
Qed.

(** C2 (amended).  A BID that fails a precondition (no such lot, lot not
    open, amount below a minimum price that is set and not zero) leaves the
    lots and the bids as they were and answers with the reply of that
    failure; a lot id outside 64 bits leaves them as they were too, but the
    request ends with the 500 of [OverflowError].  The users change only for
    a sender who was not registered, who is appended as a buyer and sent the
    welcome SMS. *)
Theorem failed_bid_only_registers_sender :
  forall db body phone code t1 t2 lid amount r,
    tokens body = ["bid"; t1; t2] ->
    int_of_str t1 = Some lid ->
    float_of_str t2 = Some amount ->
    bid_rejected str_float db lid amount r ->
    let o := handler db body phone code in
    reply o = r
    /\ lots (db_after o) = lots db
    /\ bids (db_after o) = bids db
    /\ (user_by_phone db phone <> None -> db_after o = db /\ trace o = [])
    /\ (user_by_phone db phone = None ->
        users (db_after o)
        = (users db ++ [new_user db phone "buyer" None code])%list
        /\ trace o = [SendSms phone (welcome code)]).
Proof.
  intros db body phone code t1 t2 lid amount r Htok H1 H2 Hrej.
  cbv zeta. rewrite (bid_parsed _ _ _ _ _ _ _ _ Htok H1 H2).
  rewrite (do_bid_rejected _ _ _ _ _ _ Hrej).
  destruct (get_or_create_user_spec db phone "buyer" None code)
    as [[u [Hu Hg]] | [Hu Hg]]; rewrite Hg; cbn.
  - repeat (split; [ reflexivity | ]). split.
    + intros _. split; reflexivity.
    + intro Hc. rewrite Hu in Hc. discriminate.
  - repeat (split; [ reflexivity | ]). split.
    + intro Hc. contradiction.
    + intros _. split; reflexivity.
Qed.

(** C5 (defect in the code).  A bid that passes the checks of lines 169 and
    174 is not persisted: the commit of line 180 raises [StatementError],
    the request ends with a 500, and the lines after it are not reached, so
    no bid_update is emitted and no MSP alert is sent, whether the amount is
    below the MSP or not.  The only call made is the welcome SMS to a sender
    who was not registered. *)
Theorem accepted_bid_is_lost :
  forall db body phone code t1 t2 lid amount lot,
    tokens body = ["bid"; t1; t2] ->
    int_of_str t1 = Some lid ->
    float_of_str t2 = Some amount ->
    bid_accepted db lid amount lot ->
    let o := handler db body phone code in
    reply o = ServerError "StatementError"
    /\ bids (db_after o) = bids db
    /\ lots (db_after o) = lots db
    /\ trace o = registration db phone code.
Proof.
  intros db body phone code t1 t2 lid amount lot Htok H1 H2 Hacc.
  cbv zeta. rewrite (bid_parsed _ _ _ _ _ _ _ _ Htok H1 H2).
  rewrite (do_bid_accepted _ _ _ _ _ _ Hacc). cbn [reply db_after trace].
  pose proof (get_or_create_user_lots db phone "buyer" None code) as [Hl Hb].
  repeat split; assumption.
Qed.

(** *** LIST *)

Lemma long_enough (a b c : string) (rest : list string) :
  (3 <=? Z.of_nat (List.length (a :: b :: c :: rest))) = true.
Proof. apply Z.leb_le. cbn [List.length]. lia. Qed.

Lemma list_dispatch db crop tq rest phone code :
  dispatch float_of_str int_of_str str_float db ("list" :: crop :: tq :: rest)
           phone code
  = or_else (list_try float_of_str str_float db ("list" :: crop :: tq :: rest)
                      phone code) db LIST_FORMAT.
Proof.
  unfold dispatch. cbn [hd]. rewrite long_enough. reflexivity.
Qed.

(** The price a LIST command asks for: the fourth token when there is one,
    the MSP of the crop otherwise. *)
Lemma list_try_parsed db crop tq rest phone code q :
  float_of_str tq = Some q ->
  list_try float_of_str str_float db ("list" :: crop :: tq :: rest) phone code
  = match rest with
    | [] => Some (do_list str_float db crop q
                          (option_map PyInt (dict_get MSP_PRICES crop)) phone code)
    | tp :: _ =>
        match float_of_str tp with
        | Some p => Some (do_list str_float db crop q (Some (PyFloat p)) phone code)
        | None => None
        end
    end.
Proof.
  intro Hq. unfold list_try, bind. cbn [nth_error]. rewrite Hq.
  destruct rest as [|tp more].
  - reflexivity.
  - replace (3 <? Z.of_nat (List.length ("list" :: crop :: tq :: tp :: more)))
      with true by (symmetry; apply Z.ltb_lt; cbn [List.length]; lia).
    cbn [nth_error]. destruct (float_of_str tp); reflexivity.
Qed.



(** What a LIST command whose numbers parse is handed to [do_list] with. *)
Lemma list_parsed db body phone code crop tq rest q price :
  tokens body = "list" :: crop :: tq :: rest ->
  float_of_str tq = Some q ->
  (rest = [] /\ price = option_map Float.of_Z (dict_get MSP_PRICES crop))
  \/ (exists tp more, rest = tp :: more /\ float_of_str tp = price /\ price <> None) ->
  exists asked,
    handler db body phone code = do_list str_float db crop q asked phone code
    /\ option_map to_float asked = price.
Proof.
  intros Htok Hq Hprice. subst handler. unfold sms_handler.
  rewrite Htok, list_dispatch, (list_try_parsed _ _ _ _ _ _ _ Hq).
  destruct Hprice as [[-> ->] | [tp [more [-> [Hp Hn]]]]].
  - eexists. split; [ reflexivity | ].
    destruct (dict_get MSP_PRICES crop); reflexivity.
  - rewrite Hp. destruct price as [p|]; [ | contradiction ].
    eexists. split; reflexivity.
Qed.


(** *** Malformed commands *)

Lemma collective_dispatch db crop tq rest phone code :
  dispatch float_of_str int_of_str str_float db
           ("collective" :: crop :: tq :: rest) phone code
  = or_else (collective_try float_of_str str_float db
                            ("collective" :: crop :: tq :: rest) phone code)
            db COLLECTIVE_FORMAT.
Proof.
  unfold dispatch. cbn [hd]. rewrite long_enough. reflexivity.
Qed.

Lemma short_list_is_help db parts phone code :
  (Z.of_nat (List.length parts) <? 3) = true ->
  hd "" parts <> "bid" ->
  dispatch float_of_str int_of_str str_float db parts phone code
  = mkOutcome HELP db [].
Proof.
  intros Hn Hb. unfold dispatch.
  replace (3 <=? Z.of_nat (List.length parts)) with false
    by (symmetry; apply Z.leb_gt; apply Z.ltb_lt; exact Hn).
  rewrite !andb_false_r, (string_neq_eqb _ _ Hb). reflexivity.
Qed.

(** C8 (amended).  With enough tokens, a LIST, BID or COLLECTIVE whose number
    does not parse (or a COLLECTIVE without its district) gets the Invalid
    format reply of its command and changes nothing.  A recognised first
    token with the wrong number of tokens gets the help reply, as an
    unrecognised first token does. *)
Theorem malformed_commands_reply :
  forall db body phone code,
    let parts := tokens body in
    let n := Z.of_nat (List.length parts) in
    let o := handler db body phone code in
    (forall crop tq rest,
        parts = "list" :: crop :: tq :: rest ->
        float_of_str tq = None
        \/ (exists tp more, rest = tp :: more /\ float_of_str tp = None) ->
        o = mkOutcome LIST_FORMAT db [])
    /\ (forall t1 t2,
          parts = ["bid"; t1; t2] ->
          int_of_str t1 = None \/ float_of_str t2 = None ->
          o = mkOutcome BID_FORMAT db [])
    /\ (forall crop tq rest,
          parts = "collective" :: crop :: tq :: rest ->
          float_of_str tq = None \/ rest = [] ->
          o = mkOutcome COLLECTIVE_FORMAT db [])
    /\ (hd "" parts = "list" -> n < 3 -> o = mkOutcome HELP db [])
    /\ (hd "" parts = "bid" -> n <> 3 -> o = mkOutcome HELP db [])
    /\ (hd "" parts = "collective" -> n < 3 -> o = mkOutcome HELP db [])
    /\ (hd "" parts <> "list" -> hd "" parts <> "bid" ->
        hd "" parts <> "collective" -> o = mkOutcome HELP db []).
Proof.
  intros db body phone code. subst handler. cbv zeta. unfold sms_handler.
  generalize (tokens body) as parts. intro parts.
  repeat match goal with |- _ /\ _ => split end.
  - intros crop tq rest -> H. rewrite list_dispatch.
    unfold list_try, bind. cbn [nth_error].
    destruct H as [Hq | [tp [more [-> Hp]]]].
    + rewrite Hq. reflexivity.
    + destruct (float_of_str tq); [ | reflexivity ].
      replace (3 <? Z.of_nat (List.length ("list" :: crop :: tq :: tp :: more)))
        with true by (symmetry; apply Z.ltb_lt; cbn [List.length]; lia).
      cbn [nth_error]. rewrite Hp. reflexivity.
  - intros t1 t2 -> H. rewrite bid_dispatch. unfold bid_try, bind.
    cbn [nth_error]. destruct H as [H | H].
    + rewrite H. reflexivity.
    + destruct (int_of_str t1); [ rewrite H | ]; reflexivity.
  - intros crop tq rest -> H. rewrite collective_dispatch.
    unfold collective_try, bind. cbn [nth_error]. destruct H as [H | ->].
    + rewrite H. reflexivity.
    + destruct (float_of_str tq); reflexivity.
  - intros Hc Hn. apply short_list_is_help.
    + apply Z.ltb_lt. exact Hn.
    + rewrite Hc. discriminate.
  - intros Hc Hn. unfold dispatch. rewrite Hc.
    replace (Z.of_nat (List.length parts) =? 3) with false
      by (symmetry; apply Z.eqb_neq; exact Hn).
    reflexivity.
  - intros Hc Hn. apply short_list_is_help.
    + apply Z.ltb_lt. exact Hn.
    + rewrite Hc. discriminate.
  - intros Hl Hb Hc. unfold dispatch.
    rewrite (string_neq_eqb _ _ Hl), (string_neq_eqb _ _ Hb),
      (string_neq_eqb _ _ Hc). reflexivity.
Qed.

End Commands.

(** *** COLLECTIVE *)

Section Collective.

Variable float_of_str : string -> option float.
Variable int_of_str : string -> option Z.
Variable str_float : float -> string.

Local Abbreviation run' := (run float_of_str int_of_str str_float).
Local Abbreviation replies' := (replies float_of_str int_of_str str_float).

Lemma collective_parsed db parts phone code crop tq dist rest q :
  parts = "collective" :: crop :: tq :: dist :: rest ->
  float_of_str tq = Some q ->
  dispatch float_of_str int_of_str str_float db parts phone code
  = do_collective str_float db crop q dist phone code.
Proof.
  intros -> Hq. rewrite collective_dispatch. unfold collective_try, bind.
  cbn [nth_error]. rewrite Hq. reflexivity.
Qed.

(** A COLLECTIVE for a crop with an open collective lot joins that lot when
    the new total is a number: the sender's id goes to the end of the
    membership list, the quantity is added, and the lot is still the one the
    query finds.  When the new total is not a number the commit of line 219
    raises and the lot stays as it was. *)
Lemma collective_joins db r crop q lot :
  collective_request float_of_str crop r q ->
  open_collective db crop = Some lot ->
  let o := handle float_of_str int_of_str str_float db r in
  match Float.bind_real (Float.add (quantity_kg lot) q) with
  | Some total =>
      is_message (reply o) = true
      /\ open_collective (db_after o) crop
         = Some (join lot (sender_id db (req_from r)) total)
      /\ exists u, user_by_phone (db_after o) (req_from r) = Some u
                   /\ user_id u = sender_id db (req_from r)
  | None =>
      reply o = ServerError "IntegrityError"
      /\ lots (db_after o) = lots db /\ bids (db_after o) = bids db
  end.
Proof.
  intros [tq [dist [rest [Htok Hq]]]] Hlot. cbv zeta.
  unfold handle, sms_handler.
  rewrite (collective_parsed _ _ _ _ _ _ _ _ _ Htok Hq). unfold do_collective.
  pose proof (registered_sender db (req_from r) "farmer" (Some dist) (req_code r)) as H.
  destruct (get_or_create_user db (req_from r) "farmer" (Some dist) (req_code r))
    as [[u db1] ev].
  destruct H as [Hid [Hu [Hl Hb]]].
  unfold open_collective in *. rewrite Hl, Hlot.
  destruct (Float.bind_real (Float.add (quantity_kg lot) q)) as [total|];
    cbn [db_after reply is_message].
  - split; [ reflexivity | ].
    unfold update_lot. cbn [lots users join lot_id]. rewrite Hl, Hid. split.
    + apply find_update; [ exact Hlot | ].
      apply find_some in Hlot. cbn. exact (proj2 Hlot).
    + exists u. split; [ exact Hu | exact Hid ].
  - auto.
Qed.

(** A COLLECTIVE for a crop without an open collective lot creates one,
    when its quantity is a number. *)
Lemma collective_creates db r crop q :
  collective_request float_of_str crop r q ->
  open_collective db crop = None ->
  let o := handle float_of_str int_of_str str_float db r in
  let uid := sender_id db (req_from r) in
  match Float.bind_real q with
  | Some kept =>
      is_message (reply o) = true
      /\ open_collective (db_after o) crop
         = Some (mkLot (next_id (map lot_id (lots db))) uid crop kept None
                       "open" true [uid])
  | None =>
      reply o = ServerError "IntegrityError"
      /\ lots (db_after o) = lots db /\ bids (db_after o) = bids db
  end.
Proof.
  intros [tq [dist [rest [Htok Hq]]]] Hlot. cbv zeta.
  unfold handle, sms_handler.
  rewrite (collective_parsed _ _ _ _ _ _ _ _ _ Htok Hq). unfold do_collective.
  pose proof (registered_sender db (req_from r) "farmer" (Some dist) (req_code r)) as H.
  destruct (get_or_create_user db (req_from r) "farmer" (Some dist) (req_code r))
    as [[u db1] ev].
  destruct H as [Hid [Hu [Hl Hb]]].
  unfold open_collective in *. rewrite Hl, Hlot.
  destruct (Float.bind_real q) as [kept|]; cbn [db_after reply is_message].
  - split; [ reflexivity | ].
    unfold add_lot. cbn [lots users]. rewrite Hl, Hid, (find_snoc _ _ _ Hlot). cbn.
    rewrite String.eqb_refl. reflexivity.
  - auto.
Qed.

(** A join that is answered with a message has put its total in the
    column. *)
Lemma successful_join db r crop q lot :
  collective_request float_of_str crop r q ->
  open_collective db crop = Some lot ->
  is_message (reply (handle float_of_str int_of_str str_float db r)) = true ->
  let db' := db_after (handle float_of_str int_of_str str_float db r) in
  let total := Float.stored (Float.add (quantity_kg lot) q) in
  Float.bind_real total = Some total
  /\ open_collective db' crop = Some (join lot (sender_id db (req_from r)) total)
  /\ exists u, user_by_phone db' (req_from r) = Some u
               /\ user_id u = sender_id db (req_from r).
Proof.
  intros Hr Hlot Hm. cbv zeta.
  pose proof (collective_joins db r crop q lot Hr Hlot) as H. cbv zeta in H.
  destruct (Float.bind_real (Float.add (quantity_kg lot) q)) as [total|] eqn:Ht.
  - destruct (bind_real_stored _ _ Ht) as [-> _].
    split; [ exact (bind_real_kept _ _ Ht) | exact (proj2 H) ].
  - destruct H as [H _]. rewrite H in Hm. discriminate.
Qed.

(** A run of joins, each answered with a message, seen after each of its
    prefixes: the lot stays the one the query finds, its membership list
    grows at the end, and its quantity is the running sum. *)
Lemma run_joins crop reqs qs :
  Forall2 (collective_request float_of_str crop) reqs qs ->
  forall db lot,
    open_collective db crop = Some lot ->
    forallb is_message (replies' db reqs) = true ->
    exists ids,
      List.length ids = List.length reqs
      /\ forall k, (k <= List.length reqs)%nat ->
           exists lk,
             open_collective (run' db (firstn k reqs)) crop = Some lk
             /\ lot_id lk = lot_id lot
             /\ members lk = (members lot ++ firstn k ids)%list
             /\ Float.stored (quantity_kg lk)
                = Float.stored (fold_left Float.add (firstn k qs) (quantity_kg lot))
             /\ (Float.bind_real (quantity_kg lot) = Some (quantity_kg lot) ->
                 Float.bind_real (quantity_kg lk) = Some (quantity_kg lk)).
Proof.
  induction 1 as [|r q rs qs' Hr _ IH]; intros db lot Hlot Hok.
  - exists []. split; [ reflexivity | ]. intros k Hk.
    exists lot. rewrite !firstn_nil, app_nil_r. cbn [fold_left]. auto.
  - cbn [replies forallb] in Hok. apply andb_prop in Hok. destruct Hok as [Hm Hok].
    destruct (successful_join db r crop q lot Hr Hlot Hm) as [Hkept [Hstep _]].
    destruct (IH _ _ Hstep Hok) as [ids [Hlen Hpre]].
    exists (sender_id db (req_from r) :: ids). split; [ cbn; congruence | ].
    intros [|k] Hk.
    + exists lot. cbn. rewrite app_nil_r. auto.
    + cbn in Hk. destruct (Hpre k ltac:(lia)) as [lk [Ho [Hi [Hmem [Hq Hk']]]]].
      exists lk. cbn [firstn fold_left]. repeat split.
      * exact Ho.
      * exact Hi.
      * rewrite Hmem. cbn [join members]. rewrite <- app_assoc. reflexivity.
      * rewrite Hq. cbn [join quantity_kg]. apply stored_fold_add.
      * intros _. apply Hk'. exact Hkept.
Qed.

(** C4.  Let no open collective lot exist for [crop], and let N well-formed
    COLLECTIVE commands for [crop] arrive, declaring [q1] and then [qs],
    each answered with a message (none broken off by an exception).  The
    first creates the lot and the others join it.  In the end its quantity
    is [q1 + ... + qN], added from the left (held as the column holds it,
    0.0 for -0.0, so equal as a number), and its membership list has length
    N; and after the first [k] commands the membership list is the first [k]
    entries of the final one, so a join only appends. *)
Theorem collective_joins_are_additive :
  forall db crop r1 q1 reqs qs,
    open_collective db crop = None ->
    collective_request float_of_str crop r1 q1 ->
    Forall2 (collective_request float_of_str crop) reqs qs ->
    forallb is_message (replies' db (r1 :: reqs)) = true ->
    exists lot,
      open_collective (run' db (r1 :: reqs)) crop = Some lot
      /\ lot_id lot = next_id (map lot_id (lots db))
      /\ quantity_kg lot = Float.stored (fold_left Float.add qs q1)
      /\ Float.is_nan (fold_left Float.add qs q1) = false
      /\ List.length (members lot) = List.length (r1 :: reqs)
      /\ forall k, (1 <= k <= List.length (r1 :: reqs))%nat ->
           exists lk,
             open_collective (run' db (firstn k (r1 :: reqs))) crop = Some lk
             /\ lot_id lk = lot_id lot
             /\ members lk = firstn k (members lot)
             /\ quantity_kg lk
                = Float.stored (fold_left Float.add (firstn (k - 1) qs) q1).
Proof.
  intros db crop r1 q1 reqs qs Hnone H1 Hrest Hok.
  cbn [replies forallb] in Hok. apply andb_prop in Hok. destruct Hok as [Hm Hok].
  pose proof (collective_creates db r1 crop q1 H1 Hnone) as Hnew.
  cbv zeta in Hnew.
  destruct (Float.bind_real q1) as [kept|] eqn:Hq1;
    [ | destruct Hnew as [Hnew _]; rewrite Hnew in Hm; discriminate ].
  destruct Hnew as [_ Hnew].
  pose proof (bind_real_kept _ _ Hq1) as Hkept.
  destruct (bind_real_stored _ _ Hq1) as [-> _].
  destruct (run_joins crop reqs qs Hrest _ _ Hnew Hok) as [ids [Hlen Hpre]].
  assert (Hqs : List.length qs = List.length reqs)
    by (symmetry; eapply Forall2_length; eassumption).
  assert (Hsum : forall k lk,
             Float.stored (quantity_kg lk)
             = Float.stored (fold_left Float.add (firstn k qs) (Float.stored q1)) ->
             Float.bind_real (quantity_kg lk) = Some (quantity_kg lk) ->
             quantity_kg lk = Float.stored (fold_left Float.add (firstn k qs) q1)
             /\ Float.is_nan (fold_left Float.add (firstn k qs) q1) = false).
  { intros k lk Hs Hk. rewrite stored_fold_add in Hs.
    destruct (bind_real_stored _ _ Hk) as [Hst Hn].
    split; [ rewrite Hst; exact Hs | ].
    rewrite Hst, Hs in Hn.
    destruct (fold_left Float.add (firstn k qs) q1); try reflexivity; discriminate. }
  destruct (Hpre (List.length reqs) (le_n _)) as [lot [Ho [Hi [Hmem [Hq Hk]]]]].
  rewrite firstn_all in Ho. rewrite <- Hlen, firstn_all in Hmem.
  cbn [quantity_kg members lot_id] in Hi, Hmem, Hq, Hk.
  destruct (Hsum _ _ Hq (Hk Hkept)) as [Hq' Hn'].
  rewrite <- Hqs, firstn_all in Hq', Hn'.
  exists lot. split; [ exact Ho | ]. split; [ exact Hi | ].
  split; [ exact Hq' | ]. split; [ exact Hn' | ].
  split; [ rewrite Hmem; cbn; congruence | ].
  intros [|k] [Hk1 Hk2]; [ lia | ]. cbn in Hk2.
  destruct (Hpre k ltac:(lia)) as [lk [Hok' [Hik [Hmk [Hqk Hkk]]]]].
  cbn [quantity_kg members lot_id] in Hik, Hmk, Hqk, Hkk.
  exists lk. cbn [firstn]. split; [ exact Hok' | ].
  split; [ congruence | ].
  split; [ rewrite Hmk, Hmem; reflexivity | ].
  replace (S k - 1)%nat with k by lia. exact (proj1 (Hsum _ _ Hqk (Hkk Hkept))).
Qed.


(** X14.  A join whose new total is not a number (a NaN, as for an infinite
    lot joined with the opposite infinity) is rolled back: the response is
    the 500 of [IntegrityError], and lots and bids are as before, so the
    sender is not appended to the membership list. *)
Theorem join_without_total_is_rolled_back db r crop q lot :
  collective_request float_of_str crop r q ->
  open_collective db crop = Some lot ->
  Float.is_nan (Float.add (quantity_kg lot) q) = true ->
  let o := handle float_of_str int_of_str str_float db r in
  reply o = ServerError "IntegrityError"
  /\ lots (db_after o) = lots db /\ bids (db_after o) = bids db.
Proof.
  intros Hr Hlot Hn. cbv zeta.
  pose proof (collective_joins db r crop q lot Hr Hlot) as H. cbv zeta in H.
  rewrite (bind_real_nan _ Hn) in H. exact H.
Qed.

End Collective.

(** ** The highest bid *)

(** The order of binary64 on the numbers, that is away from NaN. *)
Module FloatOrder.

Ltac by_cases :=
  repeat match goal with
         | H : context [Z.compare ?a ?b] |- _ => destruct (Z.compare_spec a b)
         | |- context [Z.compare ?a ?b] => destruct (Z.compare_spec a b)
         | H : context [PosDef.Pos.compare_cont Eq ?a ?b] |- _ =>
             change (PosDef.Pos.compare_cont Eq a b) with (Pos.compare a b) in *;
             destruct (Pos.compare_spec a b)
         | |- context [PosDef.Pos.compare_cont Eq ?a ?b] =>
             change (PosDef.Pos.compare_cont Eq a b) with (Pos.compare a b) in *;
             destruct (Pos.compare_spec a b)
         | H : context [Pos.compare ?a ?b] |- _ => destruct (Pos.compare_spec a b)
         | |- context [Pos.compare ?a ?b] => destruct (Pos.compare_spec a b)
         end;
  cbn in *; subst; try discriminate; try reflexivity; try lia.

Ltac unfold_order :=
  unfold Float.leb, Float.ltb, Float.eqb, Float.is_nan, SFleb, SFltb, SFeqb,
    SFcompare in *.

Lemma leb_refl x : Float.is_nan x = false -> Float.leb x x = true.
Proof.
  unfold_order. destruct x as [[|]|[|]| |[|] m e]; intro H;
    try discriminate; try reflexivity; by_cases.
Qed.

Lemma eqb_refl x : Float.is_nan x = false -> Float.eqb x x = true.
Proof.
  unfold_order. destruct x as [[|]|[|]| |[|] m e]; intro H;
    try discriminate; try reflexivity; by_cases.
Qed.

Lemma ltb_leb x y : Float.ltb x y = true -> Float.leb x y = true.
Proof.
  unfold_order. destruct (match x with S754_nan => None | _ => _ end)
    as [[| |]|]; intro H; try discriminate; reflexivity.
Qed.

Lemma not_ltb_leb x y :
  Float.is_nan x = false -> Float.is_nan y = false ->
  Float.ltb x y = false -> Float.leb y x = true.
Proof.
  unfold_order.
  destruct x as [[|]|[|]| |[|] m e], y as [[|]|[|]| |[|] m' e']; intros Hx Hy H;
    try discriminate; try reflexivity; by_cases.
Qed.

Lemma leb_trans x y z :
  Float.leb x y = true -> Float.leb y z = true -> Float.leb x z = true.
Proof.
  unfold_order.
  destruct x as [[|]|[|]| |[|] m e], y as [[|]|[|]| |[|] m' e'],
    z as [[|]|[|]| |[|] m'' e'']; intros H1 H2;
    try discriminate; try reflexivity; by_cases.
Qed.

Lemma leb_not_nan x y : Float.leb x y = true -> Float.is_nan y = false.
Proof.
  unfold_order. destruct x, y; intro H; try discriminate; reflexivity.
Qed.

(** A float that counts as false is a zero, and equals the [int] 0. *)
Lemma falsy_is_zero x :
  Float.truthy x = false -> Float.eqb (Float.of_Z 0) x = true.
Proof.
  unfold Float.truthy, Float.zero. unfold_order.
  destruct x as [[|]|[|]| |[|] m e]; intro H; try discriminate; reflexivity.
Qed.


End FloatOrder.

(** SQL [max] over numbers: an element of the list that every element is
    at most. *)
Lemma fold_max_spec (r : list float) :
  forall x,
    Float.is_nan x = false ->
    Forall (fun a => Float.is_nan a = false) r ->
    let m := fold_left (fun m y => if Float.ltb m y then y else m) r x in
    In m (x :: r)
    /\ Float.leb x m = true
    /\ (forall a, In a r -> Float.leb a m = true).
Proof.
  induction r as [|y r IH]; intros x Hx Hr; cbn [fold_left].
  - split; [ left; reflexivity | ].
    split; [ apply FloatOrder.leb_refl; exact Hx | intros a [] ].
  - inversion Hr as [|? ? Hy Hr']; subst.
    destruct (Float.ltb x y) eqn:Hlt.
    + destruct (IH y Hy Hr') as [Hin [Hle Hall]]. split; [ right; exact Hin | ].
      split.
      * eapply FloatOrder.leb_trans; [ apply FloatOrder.ltb_leb; exact Hlt | exact Hle ].
      * intros a [<- | Ha]; [ exact Hle | exact (Hall a Ha) ].
    + destruct (IH x Hx Hr') as [Hin [Hle Hall]]. split.
      * destruct Hin as [<- | Hin]; [ left; reflexivity | right; right; exact Hin ].
      * split; [ exact Hle | ].
        intros a [<- | Ha]; [ | exact (Hall a Ha) ].
        eapply FloatOrder.leb_trans; [ | exact Hle ].
        apply FloatOrder.not_ltb_leb; assumption.
Qed.

(** C7.  The highest bid of lot [i] is computed from the rows of the bid
    table whose [lot_id] is [i], and from no other row.  It is the [int] 0
    when there is no such row.  When there are such rows, and their amounts
    are numbers (a REAL column holds no NaN), it equals the amount of one of
    them that no other of them exceeds.  [get_all_lots] lists the open lots
    in the order of the table and reports this value for each; the 400 of
    [confirm_sale] and the [No bids] answer of [generate_contract] are
    decided by it. *)
Theorem highest_bid_is_maximum :
  forall str_float db i,
    let amounts :=
      map bid_amount (filter (fun b => bid_lot_id b =? i) (bids db)) in
    (amounts = [] -> highest_bid db i = PyInt 0)
    /\ (amounts <> [] ->
        Forall (fun a => Float.is_nan a = false) amounts ->
        exists a,
          In a amounts
          /\ number_eqb (highest_bid db i) (PyFloat a) = true
          /\ forall a', In a' amounts -> Float.leb a' a = true)
    /\ map view_id (get_all_lots db)
       = map lot_id (filter (fun l => String.eqb (status l) "open") (lots db))
    /\ Forall (fun v => view_highest_bid v = highest_bid db (view_id v))
              (get_all_lots db)
    /\ (forall lot,
           Lot_get db i = Return (Some lot) ->
           number_truthy (highest_bid db i) = false ->
           confirm_sale str_float db i
           = mkOutcome (Json 400 "No bids to confirm sale for this lot.") db [])
    /\ (forall lot,
           Lot_get db i = Return (Some lot) ->
           amounts = [] ->
           generate_contract str_float db i = Json 404 "No bids on this lot yet.").
Proof.
  intros str_float db i. cbv zeta. unfold highest_bid at 1 2, bids_of.
  split; [ | split; [ | split; [ | split; [ | split ] ] ] ].
  - intros ->. reflexivity.
  - intros Hne Hnan.
    destruct (map bid_amount (filter _ (bids db))) as [|a0 r]; [ contradiction | ].
    cbn [sql_max]. inversion Hnan as [|? ? H0 Hr]; subst.
    destruct (fold_max_spec r a0 H0 Hr) as [Hin [Hle Hall]].
    cbv zeta in Hin, Hle, Hall. set (m := fold_left _ _ _) in *.
    exists m. split; [ exact Hin | ]. split.
    + unfold number_eqb.
      destruct (Float.truthy m) eqn:Ht; cbn [to_float].
      * apply FloatOrder.eqb_refl. exact (FloatOrder.leb_not_nan _ _ Hle).
      * apply FloatOrder.falsy_is_zero. exact Ht.
    + intros a' [<- | Ha']; [ exact Hle | exact (Hall a' Ha') ].
  - unfold get_all_lots. rewrite map_map. reflexivity.
  - apply Forall_forall. intros v Hv. unfold get_all_lots in Hv.
    apply in_map_iff in Hv. destruct Hv as [lot [<- _]]. reflexivity.
  - intros lot Hlot Hf. destruct (Lot_get_some _ _ _ Hlot) as [_ [_ Hid]].
    unfold confirm_sale. rewrite Hlot, Hid, Hf. reflexivity.
  - intros lot Hlot Hnil. destruct (Lot_get_some _ _ _ Hlot) as [_ [_ Hid]].
    unfold generate_contract. rewrite Hlot, Hid.
    unfold highest_bid, first_bid_at, bids_of. rewrite Hnil. cbn [sql_max].
    destruct (find _ (bids db)) as [b|] eqn:Hb; [ | reflexivity ].
    apply find_some in Hb. destruct Hb as [Hin Hp].
    apply andb_prop in Hp. destruct Hp as [Hp _].
    assert (Hm : In (bid_amount b)
                    (map bid_amount (filter (fun b => bid_lot_id b =? i) (bids db))))
      by (apply in_map; apply filter_In; split; assumption).
    rewrite Hnil in Hm. contradiction.
Qed.

(** * The service as a state machine *)

(** ** What every request maintains *)

Lemma next_id_fresh ids x : In x ids -> x < next_id ids.
Proof.
  unfold next_id. induction ids as [|a ids IH]; cbn [fold_right In];
    [ intros [] | intros [<- | H] ].
  - lia.
  - specialize (IH H). lia.
Qed.

Lemma NoDup_snoc {A : Type} (l : list A) (x : A) :
  NoDup l -> ~ In x l -> NoDup (l ++ [x]).
Proof.
  induction 1 as [|a l Ha Hl IH]; cbn; intro Hx.
  - constructor; [ intros [] | constructor ].
  - constructor.
    + rewrite in_app_iff. cbn. intros [H | [H | []]]; [ contradiction | ].
      subst. apply Hx. left. reflexivity.
    + apply IH. intro H. apply Hx. right. exact H.
Qed.

Lemma next_id_not_in ids : ~ In (next_id ids) ids.
Proof. intro H. apply next_id_fresh in H. lia. Qed.

Lemma unknown_phone db phone :
  user_by_phone db phone = None -> ~ In phone (map phone_number (users db)).
Proof.
  unfold user_by_phone. intros Hf Hin. apply in_map_iff in Hin.
  destruct Hin as [u [Hu Hin]].
  pose proof (find_none _ _ Hf u Hin) as H. cbn in H.
  rewrite Hu, String.eqb_refl in H. discriminate.
Qed.

Lemma user_exists_more db db' i us :
  users db' = (users db ++ us)%list -> user_exists db i -> user_exists db' i.
Proof.
  intros Hu [u [Hin Hid]]. exists u. rewrite Hu, in_app_iff. auto.
Qed.

(** Two rows of a table with unique keys and one key are one row. *)
Lemma unique_key {A K : Type} (key : A -> K) (l : list A) (x y : A) :
  NoDup (map key l) -> In x l -> In y l -> key x = key y -> x = y.
Proof.
  induction l as [|a l IH]; cbn; intros Hn Hx Hy Hk; [ contradiction | ].
  inversion Hn as [|? ? Ha Hl]; subst.
  destruct Hx as [-> | Hx], Hy as [-> | Hy]; auto.
  - exfalso. apply Ha. rewrite Hk. apply in_map. exact Hy.
  - exfalso. apply Ha. rewrite <- Hk. apply in_map. exact Hx.
Qed.

Lemma consistent_empty : consistent empty_db.
Proof.
  constructor; cbn; try constructor; intros; contradiction.
Qed.

Lemma consistent_add_user db phone utype dist code :
  consistent db -> user_by_phone db phone = None ->
  consistent (add_user db (new_user db phone utype dist code)).
Proof.
  intros C Hnew.
  assert (Hmore : forall i, user_exists db i ->
                    user_exists (add_user db (new_user db phone utype dist code)) i)
    by (intro i; apply user_exists_more with (us := [new_user db phone utype dist code]);
        reflexivity).
  constructor; cbn [add_user users lots bids]; try apply C.
  - rewrite map_app. apply NoDup_snoc; [ apply C | apply unknown_phone; exact Hnew ].
  - rewrite map_app. apply NoDup_snoc; [ apply C | apply next_id_not_in ].
  - intros l Hl. apply Hmore. apply C. exact Hl.
  - intros l m Hl Hm. apply Hmore. eapply C; eassumption.
Qed.

Lemma consistent_add_lot db l :
  consistent db ->
  lot_id l = next_id (map lot_id (lots db)) ->
  user_exists db (farmer_id l) ->
  (forall m, In m (members l) -> user_exists db m) ->
  status l = "open" ->
  (if is_collective l
   then min_price l = None /\ hd_error (members l) = Some (farmer_id l)
   else members l = []) ->
  Float.bind_real (quantity_kg l) = Some (quantity_kg l) ->
  (forall mp, min_price l = Some mp -> Float.bind_real mp = Some mp) ->
  consistent (add_lot db l).
Proof.
  intros C Hid Hf Hm Hs Hshape Hq Hp.
  constructor; cbn [add_lot users lots bids]; try apply C.
  - rewrite map_app. apply NoDup_snoc; [ apply C | ].
    cbn. rewrite Hid. apply next_id_not_in.
  - intros x Hx. apply in_app_iff in Hx. destruct Hx as [Hx | [<- | []]];
      [ apply C; exact Hx | exact Hf ].
  - intros x m Hx. apply in_app_iff in Hx. destruct Hx as [Hx | [<- | []]];
      [ apply (members_exist _ C); exact Hx | apply Hm ].
  - intros x Hx. apply in_app_iff in Hx. destruct Hx as [Hx | [<- | []]];
      [ apply C; exact Hx | exact Hs ].
  - intros x Hx. apply in_app_iff in Hx. destruct Hx as [Hx | [<- | []]];
      [ apply C; exact Hx | exact Hshape ].
  - intros x Hx. apply in_app_iff in Hx. destruct Hx as [Hx | [<- | []]];
      [ apply C; exact Hx | exact Hq ].
  - intros x mp Hx. apply in_app_iff in Hx. destruct Hx as [Hx | [<- | []]];
      [ apply (price_kept _ C); exact Hx | apply Hp ].
Qed.

(** Rewriting the row [l] as [l'] with the same key. *)
Lemma in_update_lot db l' x :
  In x (lots (update_lot db l')) ->
  x = l' \/ (In x (lots db) /\ lot_id x <> lot_id l').
Proof.
  unfold update_lot. cbn [lots]. intro H. apply in_map_iff in H.
  destruct H as [y [Hy Hin]]. destruct (lot_id y =? lot_id l') eqn:E.
  - left. auto.
  - right. subst x. split; [ exact Hin | apply Z.eqb_neq; exact E ].
Qed.

Lemma update_lot_ids db l' :
  map lot_id (lots (update_lot db l')) = map lot_id (lots db).
Proof.
  unfold update_lot. cbn [lots]. rewrite map_map. apply map_ext_in.
  intros y _. destruct (lot_id y =? lot_id l') eqn:E; [ | reflexivity ].
  apply Z.eqb_eq in E. auto.
Qed.

Lemma consistent_update_lot db l l' :
  consistent db ->
  In l (lots db) ->
  lot_id l' = lot_id l -> farmer_id l' = farmer_id l ->
  min_price l' = min_price l ->
  (forall m, In m (members l') -> user_exists db m) ->
  status l' = "open" ->
  (if is_collective l'
   then min_price l' = None /\ hd_error (members l') = Some (farmer_id l')
   else members l' = []) ->
  Float.bind_real (quantity_kg l') = Some (quantity_kg l') ->
  consistent (update_lot db l').
Proof.
  intros C Hl Hid Hf Hmp Hm Hs Hshape Hq.
  constructor; try (cbn [update_lot users bids]; apply C).
  - rewrite update_lot_ids. apply C.
  - intros x Hx. apply in_update_lot in Hx. destruct Hx as [-> | [Hx _]].
    + rewrite Hf. apply (farmer_exists _ C). exact Hl.
    + apply (farmer_exists _ C). exact Hx.
  - intros x m Hx Hin. apply in_update_lot in Hx. destruct Hx as [-> | [Hx _]].
    + apply Hm. exact Hin.
    + apply (members_exist _ C x). exact Hx. exact Hin.
  - intros x Hx. apply in_update_lot in Hx. destruct Hx as [-> | [Hx _]];
      [ exact Hs | apply C; exact Hx ].
  - intros x Hx. apply in_update_lot in Hx. destruct Hx as [-> | [Hx _]];
      [ exact Hshape | apply C; exact Hx ].
  - intros x Hx. apply in_update_lot in Hx. destruct Hx as [-> | [Hx _]];
      [ exact Hq | apply C; exact Hx ].
  - intros x mp Hx. apply in_update_lot in Hx. destruct Hx as [-> | [Hx _]].
    + rewrite Hmp. apply (price_kept _ C). exact Hl.
    + apply (price_kept _ C). exact Hx.
Qed.

Lemma find_exists {A : Type} (f : A -> bool) (l : list A) (x : A) :
  In x l -> f x = true -> exists y, find f l = Some y.
Proof.
  intros Hin Hf. destruct (find f l) as [y|] eqn:E; [ eauto | ].
  rewrite (find_none _ _ E x Hin) in Hf. discriminate.
Qed.

Lemma find_all_false {A : Type} (f : A -> bool) (l : list A) :
  (forall x, In x l -> f x = false) -> find f l = None.
Proof.
  induction l as [|a l IH]; cbn; intro H; [ reflexivity | ].
  rewrite (H a (or_introl eq_refl)). apply IH. intros x Hx. apply H. right. exact Hx.
Qed.

Lemma user_exists_get db i :
  user_exists db i <-> exists u, get_user db i = Some u.
Proof.
  unfold get_user. split.
  - intros [u [Hin Hid]]. apply (find_exists _ _ u Hin). apply Z.eqb_eq. exact Hid.
  - intros [u H]. apply find_some in H. destruct H as [Hin Hid].
    exists u. split; [ exact Hin | apply Z.eqb_eq; exact Hid ].
Qed.

(** With an empty bid table every highest bid is the sentinel, and the two
    endpoints that ask for it find no bid. *)
Lemma highest_bid_empty_table db i : bids db = [] -> highest_bid db i = PyInt 0.
Proof. intro H. unfold highest_bid, bids_of. rewrite H. reflexivity. Qed.

Lemma confirm_sale_empty_table (str_float : float -> string) db lid :
  bids db = [] ->
  confirm_sale str_float db lid
  = mkOutcome match Lot_get db lid with
              | Throw e => Uncaught e
              | Return None => Abort 404
              | Return (Some _) => Json 400 "No bids to confirm sale for this lot."
              end db [].
Proof.
  intro H. unfold confirm_sale.
  destruct (Lot_get db lid) as [[lot|]|e]; try reflexivity.
  rewrite (highest_bid_empty_table _ _ H). reflexivity.
Qed.

Lemma generate_contract_empty_table (str_float : float -> string) db lid :
  bids db = [] ->
  generate_contract str_float db lid
  = match Lot_get db lid with
    | Throw e => Uncaught e
    | Return None => Abort 404
    | Return (Some _) => Json 404 "No bids on this lot yet."
    end.
Proof.
  intro H. unfold generate_contract.
  destruct (Lot_get db lid) as [[lot|]|e]; try reflexivity.
  unfold first_bid_at. rewrite H. reflexivity.
Qed.

Lemma confirm_sale_sends_nothing (str_float : float -> string) db lid :
  trace (confirm_sale str_float db lid) = [].
Proof.
  unfold confirm_sale. destruct (Lot_get db lid) as [[lot|]|e]; try reflexivity.
  destruct (negb _); [ reflexivity | ].
  destruct (first_bid_at _ _ _); reflexivity.
Qed.

(** Every branch of a command ends in one of its effects. *)
Ltac by_branches :=
  repeat match goal with
         | |- context [if ?c then _ else _] => destruct c
         | |- context [match ?x with Some _ => _ | None => _ end] => destruct x
         | |- context [match ?x with Return _ => _ | Throw _ => _ end] => destruct x
         end.

Section Machine.

Variable float_of_str : string -> option float.
Variable int_of_str : string -> option Z.
Variable str_float : float -> string.

Local Abbreviation step' := (step float_of_str int_of_str str_float).
Local Abbreviation exec' := (exec float_of_str int_of_str str_float).

Lemma registration_consistent db phone utype dist code :
  consistent db ->
  consistent (snd (fst (get_or_create_user db phone utype dist code)))
  /\ In (fst (fst (get_or_create_user db phone utype dist code)))
        (users (snd (fst (get_or_create_user db phone utype dist code))))
  /\ forall i, user_exists db i ->
       user_exists (snd (fst (get_or_create_user db phone utype dist code))) i.
Proof.
  intro C. unfold get_or_create_user.
  destruct (user_by_phone db phone) as [u|] eqn:Hu; cbn [fst snd].
  - split; [ exact C | ]. split; [ | auto ].
    apply find_some in Hu. apply Hu.
  - split; [ apply consistent_add_user; assumption | ]. split.
    + cbn. apply in_app_iff. right. left. reflexivity.
    + intro i. apply user_exists_more with (us := [new_user db phone utype dist code]).
      reflexivity.
Qed.

Lemma do_list_consistent db crop q price phone code :
  consistent db ->
  consistent (db_after (do_list str_float db crop q price phone code)).
Proof.
  intro C. unfold do_list.
  destruct (registration_consistent db phone "farmer" None code C) as [C1 [Hu _]].
  destruct (get_or_create_user db phone "farmer" None code) as [[u db1] ev].
  cbn [fst snd db_after] in *.
  destruct (Float.bind_real q) as [kept|] eqn:Hq; cbn [db_after]; [ | exact C1 ].
  apply consistent_add_lot; cbn; auto.
  - exists u. auto.
  - intros m [].
  - exact (bind_real_kept _ _ Hq).
  - intros mp Hmp. destruct price as [p|]; [ | discriminate ].
    exact (bind_real_kept _ _ Hmp).
Qed.

Lemma do_bid_consistent db lid amount phone code :
  consistent db ->
  consistent (db_after (do_bid str_float db lid amount phone code)).
Proof.
  intro C. destruct (do_bid_stores_nothing str_float db lid amount phone code)
    as [r ->].
  cbn [db_after]. apply registration_consistent. exact C.
Qed.

Lemma do_collective_consistent db crop q dist phone code :
  consistent db ->
  consistent (db_after (do_collective str_float db crop q dist phone code)).
Proof.
  intro C. unfold do_collective.
  destruct (registration_consistent db phone "farmer" (Some dist) code C)
    as [C1 [Hu _]].
  destruct (get_or_create_user db phone "farmer" (Some dist) code) as [[u db1] ev].
  cbn [fst snd] in *.
  destruct (open_collective db1 crop) as [cl|] eqn:Hcl.
  - destruct (Float.bind_real _) as [total|] eqn:Ht; cbn [db_after]; [ | exact C1 ].
    apply find_some in Hcl. destruct Hcl as [Hin Hp].
    apply andb_prop in Hp. destruct Hp as [Hp Hopen].
    apply andb_prop in Hp. destruct Hp as [Hcoll _].
    apply String.eqb_eq in Hopen.
    pose proof (lot_shape _ C1 cl Hin) as Hshape. rewrite Hcoll in Hshape.
    destruct Hshape as [Hmin Hhd].
    apply consistent_update_lot with (l := cl); cbn [join lot_id farmer_id
      min_price members status is_collective quantity_kg]; auto.
    + intros m Hm. apply in_app_iff in Hm. destruct Hm as [Hm | [<- | []]].
      * apply (members_exist _ C1 cl); assumption.
      * exists u. auto.
    + rewrite Hcoll. split; [ exact Hmin | ].
      destruct (members cl); [ discriminate | exact Hhd ].
    + exact (bind_real_kept _ _ Ht).
  - destruct (Float.bind_real q) as [kept|] eqn:Hq; cbn [db_after]; [ | exact C1 ].
    apply consistent_add_lot; cbn; auto.
    + exists u. auto.
    + intros m [<- | []]. exists u. auto.
    + exact (bind_real_kept _ _ Hq).
    + intros mp Hmp. discriminate.
Qed.

Lemma dispatch_consistent db parts phone code :
  consistent db ->
  consistent (db_after (dispatch float_of_str int_of_str str_float db parts phone code)).
Proof.
  intro C. unfold dispatch, list_try, bid_try, collective_try, bind.
  by_branches; cbn [or_else db_after];
    auto using do_list_consistent, do_bid_consistent, do_collective_consistent.
Qed.

Lemma confirm_sale_consistent db lid :
  consistent db -> consistent (db_after (confirm_sale str_float db lid)).
Proof.
  intro C. rewrite (confirm_sale_empty_table _ _ _ (no_bids _ C)). exact C.
Qed.

Lemma step_consistent db a : consistent db -> consistent (step' db a).
Proof.
  intro C. destruct a as [r | lid]; cbn [step].
  - unfold handle, sms_handler. apply dispatch_consistent. exact C.
  - apply confirm_sale_consistent. exact C.
Qed.

Lemma exec_consistent actions :
  forall db, consistent db -> consistent (exec' db actions).
Proof.
  induction actions as [|a actions IH]; intros db C; cbn; [ exact C | ].
  apply IH. apply step_consistent. exact C.
Qed.

End Machine.

(** ** States reachable from the empty database *)

Section Reachable.

Variable float_of_str : string -> option float.
Variable int_of_str : string -> option Z.
Variable str_float : float -> string.

Local Abbreviation exec' := (exec float_of_str int_of_str str_float).

Lemma reachable_consistent actions : consistent (exec' empty_db actions).
Proof. apply exec_consistent. exact consistent_empty. Qed.

(** X1.  Whatever requests arrive, no two users ever share a phone number:
    the lookup before the insert in [get_or_create_user] keeps the unique
    constraint of the column, and [user_by_phone] finds the one row. *)
Theorem phone_numbers_stay_unique :
  forall actions,
    let db := exec' empty_db actions in
    NoDup (map phone_number (users db))
    /\ Forall (fun u => user_by_phone db (phone_number u) = Some u) (users db).
Proof.
  intro actions. cbv zeta.
  pose proof (reachable_consistent actions) as C.
  split; [ apply C | ]. apply Forall_forall. intros u Hu.
  destruct (find_exists (fun x => String.eqb (phone_number x) (phone_number u))
              _ u Hu (String.eqb_refl _)) as [y Hy].
  unfold user_by_phone. rewrite Hy. f_equal.
  apply find_some in Hy. destruct Hy as [Hin Hp]. apply String.eqb_eq in Hp.
  apply (unique_key phone_number (users (exec' empty_db actions)));
    auto. apply C.
Qed.

(** X2.  Whatever requests arrive, every reference resolves: the lot and the
    bidder of every bid, the farmer of every lot and every member of a
    collective lot are rows that [Lot.query.get] and [User.query.get] find. *)
Theorem references_resolve :
  forall actions,
    let db := exec' empty_db actions in
    Forall (fun b => (exists l, get_lot db (bid_lot_id b) = Some l)
                     /\ (exists u, get_user db (bidder_id b) = Some u))
           (bids db)
    /\ Forall (fun l => (exists u, get_user db (farmer_id l) = Some u)
                        /\ Forall (fun m => exists u, get_user db m = Some u)
                                  (members l))
              (lots db).
Proof.
  intro actions. cbv zeta.
  pose proof (reachable_consistent actions) as C.
  split.
  - rewrite (no_bids _ C). constructor.
  - apply Forall_forall. intros l Hl. split.
    + apply user_exists_get. apply C. exact Hl.
    + apply Forall_forall. intros m Hm. apply user_exists_get.
      apply (members_exist _ C l); assumption.
Qed.


(** X4.  Whatever requests arrive, a lot is open or sold (the status
    [closed] is never written); a collective lot has no minimum price and
    the farmer who created it heads its membership list; any other lot has
    an empty membership list. *)
Theorem lots_keep_their_shape :
  forall actions,
    Forall (fun l => (status l = "open" \/ status l = "sold")
                     /\ if is_collective l
                        then min_price l = None
                             /\ hd_error (members l) = Some (farmer_id l)
                        else members l = [])
           (lots (exec' empty_db actions)).
Proof.
  intro actions. pose proof (reachable_consistent actions) as C.
  apply Forall_forall. intros l Hl.
  split; [ left; apply C; exact Hl | apply C; exact Hl ].
Qed.

(** X5.  Whatever requests arrive, no bid is ever stored and no lot is ever
    sold: the bid table stays empty, every lot stays open, and the highest
    bid of every lot id is the sentinel 0. *)
Theorem no_bid_is_ever_stored :
  forall actions,
    let db := exec' empty_db actions in
    bids db = []
    /\ Forall (fun l => status l = "open") (lots db)
    /\ forall i, highest_bid db i = PyInt 0.
Proof.
  intro actions. cbv zeta.
  pose proof (reachable_consistent actions) as C.
  split; [ apply C | ]. split.
  - apply Forall_forall. intros l Hl. apply C. exact Hl.
  - intro i. apply highest_bid_empty_table. apply C.
Qed.

(** X13.  Whatever requests arrive, the REAL columns of the lot table hold
    numbers: no quantity is NaN or -0.0, and no minimum price that is set
    is NaN or -0.0. *)
Theorem lot_columns_hold_numbers :
  forall actions,
    Forall (fun l => Float.is_nan (quantity_kg l) = false
                     /\ Float.stored (quantity_kg l) = quantity_kg l
                     /\ match min_price l with
                        | Some mp => Float.is_nan mp = false
                                     /\ Float.stored mp = mp
                        | None => True
                        end)
           (lots (exec' empty_db actions)).
Proof.
  intro actions. pose proof (reachable_consistent actions) as C.
  apply Forall_forall. intros l Hl.
  destruct (bind_real_stored _ _ (quantity_kept _ C l Hl)) as [Hs Hn].
  split; [ exact Hn | ]. split; [ symmetry; exact Hs | ].
  destruct (min_price l) as [mp|] eqn:Hmp; [ | exact I ].
  destruct (bind_real_stored _ _ (price_kept _ C l mp Hl Hmp)) as [Hs' Hn'].
  split; [ exact Hn' | symmetry; exact Hs' ].
Qed.

(** *** Confirming a sale *)



(** *** Nothing is deleted *)

Lemma grows_refl db : grows_to db db.
Proof.
  repeat split; exists []; rewrite app_nil_r; reflexivity.
Qed.

Lemma grows_trans db1 db2 db3 :
  grows_to db1 db2 -> grows_to db2 db3 -> grows_to db1 db3.
Proof.
  intros [[us Hu] [[bs Hb] [ids Hi]]] [[us' Hu'] [[bs' Hb'] [ids' Hi']]].
  repeat split.
  - exists (us ++ us')%list. rewrite Hu', Hu, app_assoc. reflexivity.
  - exists (bs ++ bs')%list. rewrite Hb', Hb, app_assoc. reflexivity.
  - exists (ids ++ ids')%list. rewrite Hi', Hi, app_assoc. reflexivity.
Qed.

Lemma grows_registration db phone utype dist code :
  grows_to db (snd (fst (get_or_create_user db phone utype dist code))).
Proof.
  unfold get_or_create_user. destruct (user_by_phone db phone); cbn [fst snd].
  - apply grows_refl.
  - repeat split; cbn; [ eexists; reflexivity | exists [] | exists [] ];
      rewrite app_nil_r; reflexivity.
Qed.

Lemma grows_add_lot db l : grows_to db (add_lot db l).
Proof.
  repeat split; cbn; [ exists [] | exists [] | exists [lot_id l] ];
    rewrite ?app_nil_r, ?map_app; reflexivity.
Qed.

Lemma grows_update_lot db l : grows_to db (update_lot db l).
Proof.
  repeat split; [ exists [] | exists [] | exists [] ];
    rewrite ?update_lot_ids, app_nil_r; reflexivity.
Qed.

Lemma step_grows db a : grows_to db (step float_of_str int_of_str str_float db a).
Proof.
  destruct a as [r | lid]; cbn [step].
  - unfold handle, sms_handler, dispatch, list_try, bid_try, collective_try, bind.
    by_branches; cbn [or_else db_after]; try apply grows_refl.
    + unfold do_list.
      pose proof (grows_registration db (req_from r) "farmer" None (req_code r)) as G.
      destruct (get_or_create_user _ _ _ _ _) as [[u db1] ev]. cbn [fst snd] in G.
      destruct (Float.bind_real _); cbn [db_after]; [ | exact G ].
      eapply grows_trans; [ exact G | apply grows_add_lot ].
    + unfold do_list.
      pose proof (grows_registration db (req_from r) "farmer" None (req_code r)) as G.
      destruct (get_or_create_user _ _ _ _ _) as [[u db1] ev]. cbn [fst snd] in G.
      destruct (Float.bind_real _); cbn [db_after]; [ | exact G ].
      eapply grows_trans; [ exact G | apply grows_add_lot ].
    + match goal with
      | |- context [do_bid str_float db ?l ?a ?p ?c] =>
          destruct (do_bid_stores_nothing str_float db l a p c) as [x ->]
      end.
      cbn [db_after]. apply grows_registration.
    + unfold do_collective.
      match goal with
      | |- context [get_or_create_user db ?p ?t ?d ?c] =>
          pose proof (grows_registration db p t d c) as G;
          destruct (get_or_create_user db p t d c) as [[u db1] ev]
      end.
      cbn [fst snd] in G.
      destruct (open_collective db1 _); destruct (Float.bind_real _);
        cbn [db_after]; try exact G;
        (eapply grows_trans; [ exact G | ]);
        [ apply grows_update_lot | apply grows_add_lot ].
  - unfold confirm_sale.
    by_branches; cbn [db_after]; try apply grows_refl; apply grows_update_lot.
Qed.

(** X6.  No request deletes or rewrites a row of the user table or of the
    bid table, and none deletes a lot or changes its id: after any sequence
    of requests the users and bids of before are still there, unchanged and
    in front, and so are the ids of the lots. *)
Theorem tables_only_grow :
  forall db actions, grows_to db (exec' db actions).
Proof.
  intros db actions. revert db.
  induction actions as [|a actions IH]; intro db; cbn.
  - apply grows_refl.
  - eapply grows_trans; [ apply step_grows | apply IH ].
Qed.

End Reachable.

(** ** Users and login *)

(** X7.  Registration happens once per phone number.  After
    [get_or_create_user] has returned a user for a phone number, a second
    call for that number returns the same row whatever type, district and
    login code it is given: nothing is overwritten, no row is added and no
    second welcome SMS is sent. *)
Theorem registration_is_idempotent :
  forall db phone utype dist code utype' dist' code',
    let '(u, db1, _) := get_or_create_user db phone utype dist code in
    get_or_create_user db1 phone utype' dist' code' = (u, db1, []).
Proof.
  intros db phone utype dist code utype' dist' code'.
  unfold get_or_create_user at 1.
  destruct (user_by_phone db phone) as [u|] eqn:Hu.
  - unfold get_or_create_user. rewrite Hu. reflexivity.
  - unfold get_or_create_user, user_by_phone, add_user in *. cbn [users].
    rewrite (find_snoc _ _ _ Hu). cbn. rewrite String.eqb_refl. reflexivity.
Qed.

(** X8.  The login code of a registered user opens the web portal: after
    [get_or_create_user], [login] with the phone number and the login code of
    the returned user answers 200 with that user's id and type; for a new
    phone number that code is the one just drawn and sent in the welcome
    SMS. *)
Theorem login_after_registration :
  forall db phone utype dist code,
    let '(u, db1, ev) := get_or_create_user db phone utype dist code in
    login db1 (Some phone) (Some (login_code u))
    = LoginOk "Login successful" (user_id u) (user_type u)
    /\ match user_by_phone db phone with
       | Some _ => ev = []
       | None => login_code u = code /\ user_type u = utype
                 /\ ev = [SendSms phone (welcome code)]
       end.
Proof.
  intros db phone utype dist code. unfold get_or_create_user.
  destruct (user_by_phone db phone) as [u|] eqn:Hu.
  - split; [ | reflexivity ]. unfold login, user_by_credentials.
    unfold user_by_phone in Hu.
    assert (H : find (fun x => String.eqb (phone_number x) phone
                               && String.eqb (login_code x) (login_code u))
                     (users db) = Some u).
    { induction (users db) as [|a l IH]; cbn in *; [ discriminate | ].
      destruct (String.eqb (phone_number a) phone).
      - inversion Hu; subst. rewrite String.eqb_refl. reflexivity.
      - cbn. exact (IH Hu). }
    rewrite H. reflexivity.
  - split; [ | repeat split ]. unfold login, user_by_credentials, add_user.
    cbn [users].
    assert (H : find (fun x => String.eqb (phone_number x) phone
                               && String.eqb (login_code x) code)
                     (users db) = None).
    { apply find_all_false. intros x Hx.
      rewrite (find_none _ _ Hu x Hx). reflexivity. }
    cbn [new_user login_code]. rewrite (find_snoc _ _ _ H). cbn.
    rewrite !String.eqb_refl. reflexivity.
Qed.

(** X9.  In every reachable state [login] checks the code of the one user
    registered under the phone number: 200 with that user's id and type when
    the code is that user's login code, 401 when it is not, 401 for a phone
    number nobody registered, and 401 when a field of the body is missing. *)
Theorem login_checks_the_code :
  forall float_of_str int_of_str str_float actions phone code,
    let db := exec float_of_str int_of_str str_float empty_db actions in
    login db (Some phone) (Some code)
    = match user_by_phone db phone with
      | Some u => if String.eqb (login_code u) code
                  then LoginOk "Login successful" (user_id u) (user_type u)
                  else LoginFailed "Invalid credentials"
      | None => LoginFailed "Invalid credentials"
      end
    /\ login db None (Some code) = LoginFailed "Invalid credentials"
    /\ login db (Some phone) None = LoginFailed "Invalid credentials"
    /\ login db None None = LoginFailed "Invalid credentials".
Proof.
  intros fos ios sf actions phone code. cbv zeta.
  pose proof (reachable_consistent fos ios sf actions) as C.
  set (db := exec fos ios sf empty_db actions) in *.
  split; [ | repeat split ].
  unfold login, user_by_credentials.
  destruct (user_by_phone db phone) as [u|] eqn:Hu.
  - unfold user_by_phone in Hu. apply find_some in Hu. destruct Hu as [Hin Hp].
    destruct (String.eqb (login_code u) code) eqn:Hc.
    + destruct (find_exists
                  (fun x => String.eqb (phone_number x) phone
                            && String.eqb (login_code x) code)
                  _ u Hin ltac:(cbn; rewrite Hp, Hc; reflexivity)) as [y Hy].
      rewrite Hy. apply find_some in Hy. destruct Hy as [Hy Hq].
      apply andb_prop in Hq. destruct Hq as [Hq _].
      apply String.eqb_eq in Hp, Hq.
      assert (y = u) by (apply (unique_key phone_number (users db));
                         [ apply C | exact Hy | exact Hin | congruence ]).
      subst y. reflexivity.
    + rewrite find_all_false; [ reflexivity | ]. intros x Hx.
      destruct (String.eqb (phone_number x) phone) eqn:Hxp; [ | reflexivity ].
      apply String.eqb_eq in Hp, Hxp.
      assert (x = u) by (apply (unique_key phone_number (users db));
                         [ apply C | exact Hx | exact Hin | congruence ]).
      subst x. rewrite Hc. reflexivity.
  - rewrite find_all_false; [ reflexivity | ]. intros x Hx.
    rewrite (find_none _ _ Hu x Hx). reflexivity.
Qed.

(** ** The contract *)

(** X10.  In every state the service reaches [generate_contract] produces
    no contract: it answers 404 with [No bids on this lot yet.] for a lot
    that exists, 404 for a lot id that no lot has, and with the 500 of
    [OverflowError] for an id outside 64 bits. *)
Theorem generate_contract_finds_no_bid :
  forall float_of_str int_of_str str_float actions lid,
    let db := exec float_of_str int_of_str str_float empty_db actions in
    generate_contract str_float db lid
    = match Lot_get db lid with
      | Throw e => Uncaught e
      | Return None => Abort 404
      | Return (Some _) => Json 404 "No bids on this lot yet."
      end.
Proof.
  intros fos ios sf actions lid. cbv zeta.
  apply generate_contract_empty_table.
  apply (reachable_consistent fos ios sf actions).
Qed.

(** ** Commands and the dashboard *)

Section Dashboard.

Variable float_of_str : string -> option float.
Variable int_of_str : string -> option Z.
Variable str_float : float -> string.

Local Abbreviation handler' := (sms_handler float_of_str int_of_str str_float).
Local Abbreviation exec' := (exec float_of_str int_of_str str_float).

Lemma do_list_lot db crop q price phone code kept :
  Float.bind_real q = Some kept ->
  let o := do_list str_float db crop q price phone code in
  lots (db_after o)
  = (lots db ++ [mkLot (next_id (map lot_id (lots db))) (sender_id db phone)
                       crop kept
                       match price with
                       | Some p => Float.bind_real (to_float p)
                       | None => None
                       end "open" false []])%list
  /\ bids (db_after o) = bids db.
Proof.
  intro Hq. cbv zeta. unfold do_list.
  pose proof (registered_sender db phone "farmer" None code) as H.
  destruct (get_or_create_user db phone "farmer" None code) as [[u db1] ev].
  destruct H as [Hid [_ [Hl Hb]]]. rewrite Hq. cbn [db_after add_lot lots bids].
  rewrite Hl, Hb, Hid. split; reflexivity.
Qed.

Lemma highest_bid_same_bids db db' i :
  bids db' = bids db -> highest_bid db' i = highest_bid db i.
Proof. intro H. unfold highest_bid, bids_of. rewrite H. reflexivity. Qed.

(** X11.  A lot listed by SMS is on the dashboard at once: in a reachable
    state, after a LIST whose numbers parse and whose quantity is a number,
    [get_all_lots] returns what it returned before followed by one entry for
    the new lot, with the crop of the command, what the columns keep of its
    quantity and minimum price, and the highest bid 0. *)
Theorem listed_lot_is_on_the_dashboard :
  forall actions body phone code crop tq rest q price,
    let db := exec' empty_db actions in
    tokens body = "list" :: crop :: tq :: rest ->
    float_of_str tq = Some q ->
    (rest = [] /\ price = option_map Float.of_Z (dict_get MSP_PRICES crop))
    \/ (exists tp more,
           rest = tp :: more /\ float_of_str tp = price /\ price <> None) ->
    Float.is_nan q = false ->
    get_all_lots (db_after (handler' db body phone code))
    = (get_all_lots db
       ++ [mkLotView (next_id (map lot_id (lots db))) crop (Float.stored q)
                     match price with
                     | Some p => Float.bind_real p
                     | None => None
                     end (PyInt 0)])%list.
Proof.
  intros actions body phone code crop tq rest q price db Htok Hq Hprice Hn.
  pose proof (reachable_consistent float_of_str int_of_str str_float actions) as C.
  fold db in C.
  destruct (list_parsed float_of_str int_of_str str_float
              db body phone code crop tq rest q price Htok Hq Hprice)
    as [asked [-> Hasked]].
  destruct (do_list_lot db crop q asked phone code _ (bind_real_number _ Hn))
    as [Hl Hb].
  cbv zeta in Hl, Hb.
  unfold get_all_lots. rewrite Hl, filter_app, map_app. cbn [filter status].
  cbn [String.eqb Ascii.eqb Bool.eqb map lot_id crop_type quantity_kg min_price].
  f_equal.
  - apply map_ext. intro l. rewrite (highest_bid_same_bids db _ _ Hb). reflexivity.
  - rewrite (highest_bid_empty_table _ _ (eq_trans Hb (no_bids _ C))).
    subst price. destruct asked; reflexivity.
Qed.

(** What a command leaves of its sender: the calls are those of the
    registration, and the users are the users after it. *)
Lemma do_list_registers db crop q price phone code :
  let g := get_or_create_user db phone "farmer" None code in
  let o := do_list str_float db crop q price phone code in
  trace o = snd g /\ users (db_after o) = users (snd (fst g))
  /\ bids (db_after o) = bids db.
Proof.
  cbv zeta. unfold do_list.
  pose proof (get_or_create_user_lots db phone "farmer" None code) as [_ Hb].
  destruct (get_or_create_user db phone "farmer" None code) as [[u db1] ev].
  cbn [fst snd] in *. destruct (Float.bind_real q); cbn; auto.
Qed.

Lemma do_bid_registers db lid amount phone code :
  let g := get_or_create_user db phone "buyer" None code in
  let o := do_bid str_float db lid amount phone code in
  trace o = snd g /\ users (db_after o) = users (snd (fst g))
  /\ bids (db_after o) = bids db /\ lots (db_after o) = lots db.
Proof.
  cbv zeta. destruct (do_bid_stores_nothing str_float db lid amount phone code)
    as [r ->].
  cbn [trace db_after]. rewrite get_or_create_user_trace.
  pose proof (get_or_create_user_lots db phone "buyer" None code) as [Hl Hb].
  auto.
Qed.

Lemma do_collective_registers db crop q dist phone code :
  let g := get_or_create_user db phone "farmer" (Some dist) code in
  let o := do_collective str_float db crop q dist phone code in
  trace o = snd g /\ users (db_after o) = users (snd (fst g))
  /\ bids (db_after o) = bids db.
Proof.
  cbv zeta. unfold do_collective.
  pose proof (get_or_create_user_lots db phone "farmer" (Some dist) code) as [_ Hb].
  destruct (get_or_create_user db phone "farmer" (Some dist) code) as [[u db1] ev].
  cbn [fst snd] in *.
  destruct (open_collective db1 crop); destruct (Float.bind_real _); cbn; auto.
Qed.

(** X12.  No SMS command stores a bid or announces one, in any state: the
    bid table is as before, no event is emitted, and the only SMS that may
    be sent is the welcome to a sender who was not registered.  A message
    whose first word is [bid] leaves the lots as they were too. *)
Theorem sms_never_stores_a_bid :
  forall db body phone code,
    let o := handler' db body phone code in
    bids (db_after o) = bids db
    /\ (trace o = registration db phone code \/ trace o = [])
    /\ (forall name l a, ~ In (Emit name l a) (trace o))
    /\ (hd "" (tokens body) = "bid" -> lots (db_after o) = lots db).
Proof.
  intros db body phone code. cbv zeta.
  enough (H : bids (db_after (handler' db body phone code)) = bids db
              /\ (trace (handler' db body phone code) = registration db phone code
                  \/ trace (handler' db body phone code) = [])
              /\ (hd "" (tokens body) = "bid" ->
                  lots (db_after (handler' db body phone code)) = lots db)).
  { destruct H as [Hb [Ht Hl]].
    split; [ exact Hb | ]. split; [ exact Ht | ]. split; [ | exact Hl ].
    intros name l a. destruct Ht as [-> | ->];
      [ apply registration_sends_sms | intros [] ]. }
  unfold sms_handler, dispatch.
  generalize (tokens body) as parts. intro parts.
  destruct (String.eqb (hd "" parts) "list" && _) eqn:El.
  - assert (Hne : hd "" parts <> "bid").
    { apply andb_prop in El. destruct El as [El _]. apply String.eqb_eq in El.
      rewrite El. discriminate. }
    unfold list_try, bind.
    by_branches; cbn [or_else db_after trace]; auto;
      match goal with
      | |- context [do_list str_float db ?c ?q ?p ?ph ?co] =>
          destruct (do_list_registers db c q p ph co) as [Ht [_ Hb]];
          cbv zeta in Ht, Hb; rewrite Ht, Hb, get_or_create_user_trace
      end;
      (split; [ reflexivity | split; [ left; reflexivity | intro; contradiction ] ]).
  - destruct (String.eqb (hd "" parts) "bid" && _) eqn:Eb.
    + unfold bid_try, bind.
      by_branches; cbn [or_else db_after trace]; auto.
      match goal with
      | |- context [do_bid str_float db ?l ?a ?ph ?co] =>
          destruct (do_bid_registers db l a ph co) as [Ht [_ [Hb Hl]]];
          cbv zeta in Ht, Hb, Hl; rewrite Ht, Hb, Hl, get_or_create_user_trace
      end.
      auto.
    + destruct (String.eqb (hd "" parts) "collective" && _) eqn:Ec;
        [ | cbn; auto ].
      assert (Hne : hd "" parts <> "bid").
      { apply andb_prop in Ec. destruct Ec as [Ec _]. apply String.eqb_eq in Ec.
        rewrite Ec. discriminate. }
      unfold collective_try, bind.
      by_branches; cbn [or_else db_after trace]; auto;
        match goal with
        | |- context [do_collective str_float db ?c ?q ?d ?ph ?co] =>
            destruct (do_collective_registers db c q d ph co) as [Ht [_ Hb]];
            cbv zeta in Ht, Hb; rewrite Ht, Hb, get_or_create_user_trace
        end;
        (split; [ reflexivity | split; [ left; reflexivity | intro; contradiction ] ]).
Qed.

(** X19.  In every state the service reaches the dashboard shows every lot
    of the table, in the order of listing, each with the highest bid 0: no
    lot ever leaves it, and no bid ever shows on it. *)
Theorem dashboard_lists_every_lot :
  forall actions,
    let db := exec' empty_db actions in
    get_all_lots db
    = map (fun l => mkLotView (lot_id l) (crop_type l) (quantity_kg l)
                              (min_price l) (PyInt 0))
          (lots db).
Proof.
  intro actions. cbv zeta.
  pose proof (reachable_consistent float_of_str int_of_str str_float actions) as C.
  unfold get_all_lots.
  assert (Hopen : filter (fun l => String.eqb (status l) "open")
                         (lots (exec' empty_db actions))
                  = lots (exec' empty_db actions)).
  { pose proof (all_open _ C) as Ho.
    induction (lots (exec' empty_db actions)) as [|l ls IH]; [ reflexivity | ].
    cbn [filter]. rewrite (Ho l (or_introl eq_refl)). cbn.
    f_equal. apply IH. intros x Hx. apply Ho. right. exact Hx. }
  rewrite Hopen. apply map_ext. intro l.
  rewrite (highest_bid_empty_table _ _ (no_bids _ C)). reflexivity.
Qed.

End Dashboard.

(** ** Letter case *)

Lemma is_space_lower c : Text.is_space (Text.lower_char c) = Text.is_space c.
Proof. destruct c as [[] [] [] [] [] [] [] []]; reflexivity. Qed.

Lemma lower_char_idempotent c :
  Text.lower_char (Text.lower_char c) = Text.lower_char c.
Proof. destruct c as [[] [] [] [] [] [] [] []]; reflexivity. Qed.

Lemma lower_idempotent s : Text.lower (Text.lower s) = Text.lower s.
Proof.
  induction s as [|c s IH]; cbn; [ reflexivity | ].
  rewrite lower_char_idempotent, IH. reflexivity.
Qed.

Lemma lstrip_lower s : Text.lstrip (Text.lower s) = Text.lower (Text.lstrip s).
Proof.
  induction s as [|c s IH]; cbn [Text.lower Text.lstrip]; [ reflexivity | ].
  rewrite is_space_lower. destruct (Text.is_space c); [ exact IH | reflexivity ].
Qed.

Lemma rev_string_lower s :
  forall acc,
    Text.rev_string (Text.lower acc) (Text.lower s)
    = Text.lower (Text.rev_string acc s).
Proof.
  induction s as [|c s IH]; intro acc; cbn [Text.lower Text.rev_string];
    [ reflexivity | ].
  exact (IH (String c acc)).
Qed.

Lemma strip_lower s : Text.strip (Text.lower s) = Text.lower (Text.strip s).
Proof.
  unfold Text.strip, Text.rstrip.
  rewrite lstrip_lower, (rev_string_lower _ ""), lstrip_lower.
  exact (rev_string_lower _ "").
Qed.

(** X15.  Commands are read without regard to letter case: two message
    bodies that differ only in the case of their letters get the same reply
    and have the same effect (so crops and districts are stored in lower
    case). *)
Theorem commands_ignore_case :
  forall float_of_str int_of_str str_float db body body' phone code,
    Text.lower body = Text.lower body' ->
    sms_handler float_of_str int_of_str str_float db body phone code
    = sms_handler float_of_str int_of_str str_float db body' phone code.
Proof.
  intros fos ios sf db body body' phone code H.
  unfold sms_handler, tokens. rewrite <- !strip_lower, H. reflexivity.
Qed.

(** ** Historical prices *)

(** X16.  [get_historical_prices] answers 200 with the series of the table
    for wheat and rice in mumbai and in delhi, whatever the letter case of
    crop and district, and 404 for every other crop or district, maize
    included. *)
Theorem historical_prices_lookup :
  forall crop district,
    let answer := get_historical_prices crop district in
    let c := Text.lower crop in
    let d := Text.lower district in
    (d = "mumbai" -> c = "wheat" -> answer = PricesOk [2300; 2350; 2400])
    /\ (d = "mumbai" -> c = "rice" -> answer = PricesOk [2500; 2550; 2600])
    /\ (d = "delhi" -> c = "wheat" -> answer = PricesOk [2250; 2300; 2320])
    /\ (d = "delhi" -> c = "rice" -> answer = PricesOk [2450; 2480; 2510])
    /\ ((d <> "mumbai" /\ d <> "delhi") \/ (c <> "wheat" /\ c <> "rice") ->
        answer = PricesNotFound
                   "No historical data available for this crop and district.")
    /\ get_historical_prices c d = answer.
Proof.
  intros crop district. cbv zeta. unfold get_historical_prices.
  rewrite !lower_idempotent.
  repeat match goal with |- _ /\ _ => split end; try reflexivity.
  - intros -> ->. reflexivity.
  - intros -> ->. reflexivity.
  - intros -> ->. reflexivity.
  - intros -> ->. reflexivity.
  - unfold HISTORICAL_PRICES. cbn [dict_get].
    intros [[Hm Hd] | [Hw Hr]].
    + rewrite (string_neq_eqb _ _ (not_eq_sym Hm)), (string_neq_eqb _ _ (not_eq_sym Hd)).
      reflexivity.
    + destruct (String.eqb "mumbai" (Text.lower district)); cbn [dict_get].
      * rewrite (string_neq_eqb _ _ (not_eq_sym Hw)), (string_neq_eqb _ _ (not_eq_sym Hr)).
        reflexivity.
      * destruct (String.eqb "delhi" (Text.lower district)); cbn [dict_get];
          [ | reflexivity ].
        rewrite (string_neq_eqb _ _ (not_eq_sym Hw)), (string_neq_eqb _ _ (not_eq_sym Hr)).
        reflexivity.
Qed.

(** ** The notification gateway *)

(** X17.  [send_sms] never raises, whatever the provider does.  It calls the
    provider only when the account id, the token and the sender number are
    all set and not empty, and then exactly once, with the sender number as
    [from_]; in every case it prints one line. *)
Theorem send_sms_never_raises :
  forall cfg create to message,
    exists sent,
      send_sms cfg create to message = Return sent
      /\ List.length (printed sent) = 1%nat
      /\ created sent
         = if is_set (TWILIO_ACCOUNT_SID cfg) && is_set (TWILIO_AUTH_TOKEN cfg)
              && is_set (TWILIO_PHONE_NUMBER cfg)
           then match TWILIO_PHONE_NUMBER cfg with
                | Some from_ => [(to, from_, message)]
                | None => []
                end
           else [].
Proof.
  intros cfg create to message. unfold send_sms, client.
  destruct (is_set (TWILIO_ACCOUNT_SID cfg)), (is_set (TWILIO_AUTH_TOKEN cfg));
    cbn [andb negb orb]; try (eexists; repeat split; reflexivity).
  destruct (TWILIO_PHONE_NUMBER cfg) as [from_|] eqn:Hp; cbn [is_set negb];
    [ | eexists; repeat split; reflexivity ].
  destruct (negb (String.eqb from_ "")); cbn [negb];
    [ | eexists; repeat split; reflexivity ].
  destruct (create to from_ message); cbn [try_except];
    eexists; repeat split; reflexivity.
Qed.

(** ** The effect of a confirmed sale *)

Section Sale.

Variable float_of_str : string -> option float.
Variable int_of_str : string -> option Z.
Variable str_float : float -> string.

Local Abbreviation exec' := (exec float_of_str int_of_str str_float).


End Sale.

(** ** The welcome SMS *)

Section Welcome.

Variable float_of_str : string -> option float.
Variable int_of_str : string -> option Z.
Variable str_float : float -> string.

Local Abbreviation exec' := (exec float_of_str int_of_str str_float).
Local Abbreviation events' := (events float_of_str int_of_str str_float).

(** The number of welcome SMS to [p] among [evs]. *)
Local Abbreviation welcomes p evs := (List.length (filter (is_welcome p) evs)).

Lemma registration_welcomes db q utype dist code p :
  (welcomes p (snd (get_or_create_user db q utype dist code))
   + Nat.b2n (registered db p))%nat
  = Nat.b2n (registered (snd (fst (get_or_create_user db q utype dist code))) p).
Proof.
  unfold get_or_create_user, registered.
  destruct (user_by_phone db q) as [u|] eqn:Hq; cbn [fst snd]; [ reflexivity | ].
  cbn [filter is_welcome]. unfold welcome at 1. cbn [String.prefix].
  unfold user_by_phone, add_user. cbn [users].
  destruct (String.eqb q p) eqn:E.
  - apply String.eqb_eq in E. subst p. unfold user_by_phone in Hq.
    rewrite Hq, (find_snoc _ _ _ Hq). cbn. rewrite String.eqb_refl. reflexivity.
  - cbn [andb List.length Nat.add].
    destruct (find _ (users db)) as [u|] eqn:Hp.
    + rewrite (find_snoc_some _ _ _ _ Hp). reflexivity.
    + rewrite (find_snoc _ _ _ Hp). cbn. rewrite E. reflexivity.
Qed.

Lemma registered_same_users db db' p :
  users db' = users db -> registered db' p = registered db p.
Proof. intro H. unfold registered, user_by_phone. rewrite H. reflexivity. Qed.

Lemma step_welcomes db a p :
  (welcomes p (calls float_of_str int_of_str str_float db a)
   + Nat.b2n (registered db p))%nat
  = Nat.b2n (registered (step float_of_str int_of_str str_float db a) p).
Proof.
  destruct a as [r | lid]; cbn [calls step].
  - unfold handle, sms_handler, dispatch, list_try, bid_try, collective_try, bind.
    by_branches; cbn [or_else db_after trace]; try reflexivity;
      match goal with
      | |- context [do_list str_float db ?c ?q ?x ?ph ?co] =>
          destruct (do_list_registers str_float db c q x ph co) as [Ht [Hu _]]
      | |- context [do_bid str_float db ?l ?x ?ph ?co] =>
          destruct (do_bid_registers str_float db l x ph co) as [Ht [Hu _]]
      | |- context [do_collective str_float db ?c ?q ?d ?ph ?co] =>
          destruct (do_collective_registers str_float db c q d ph co) as [Ht [Hu _]]
      end;
      cbv zeta in Ht, Hu;
      rewrite Ht, (registered_same_users _ _ p Hu); apply registration_welcomes.
  - rewrite confirm_sale_sends_nothing. cbn [filter List.length Nat.add].
    f_equal. symmetry. apply registered_same_users.
    unfold confirm_sale. by_branches; reflexivity.
Qed.

Lemma events_welcomes actions :
  forall db p,
    (welcomes p (events' db actions) + Nat.b2n (registered db p))%nat
    = Nat.b2n (registered (exec' db actions) p).
Proof.
  induction actions as [|a actions IH]; intros db p; cbn [events].
  - reflexivity.
  - change (exec' db (a :: actions))
      with (exec' (step float_of_str int_of_str str_float db a) actions).
    rewrite filter_app, length_app, <- (IH _ p), <- (step_welcomes db a p). lia.
Qed.

(** X20.  Every phone number is welcomed once.  Over any sequence of
    requests from the empty database, the number of welcome SMS sent to a
    phone number is 1 if the number is registered in the end, and 0 if it
    is not: no number gets a second welcome, and none is registered
    without one. *)
Theorem one_welcome_per_phone :
  forall actions p,
    welcomes p (events' empty_db actions)
    = Nat.b2n (registered (exec' empty_db actions) p).
Proof.
  intros actions p. rewrite <- (events_welcomes actions empty_db p).
  cbn. lia.
Qed.

End Welcome.

(** ** LIST, with Python's builtins *)



(** ** The statements at concrete requests *)

(** A bid of 2000 on wheat listed at the MSP is turned down with a reply; a
    bid of -5 on wheat listed with the minimum price 0 ends with a 500.
    Neither is stored, neither is announced. *)
Lemma bid_below_minimum_is_not_stored_witness :
  (Lot_get db_listed 1 = Return (Some listed_wheat)
   /\ let o := py_sms_handler db_listed "BID 1 2000" buyer_phone buyer_code in
      bids (db_after o) = []
      /\ (forall name l a, ~ In (Emit name l a) (trace o))
      /\ reply o = Message "Your bid is too low. Minimum price is Rs. 2275.0.")
  /\ (Lot_get db_zero_minimum 1 = Return (Some zero_wheat)
      /\ let o := py_sms_handler db_zero_minimum "BID 1 -5" buyer_phone buyer_code in
         bids (db_after o) = []
         /\ (forall name l a, ~ In (Emit name l a) (trace o))
         /\ reply o = ServerError "StatementError").
Proof.
  assert (H1 : Lot_get db_listed 1 = Return (Some listed_wheat))
    by (vm_compute; reflexivity).
  assert (H2 : Lot_get db_zero_minimum 1 = Return (Some zero_wheat))
    by (vm_compute; reflexivity).
  split; (split; [ assumption | ]).
  - destruct (bid_below_minimum_is_not_stored
                Py.float_of_str Py.int_of_str Py.str_float
                db_listed "BID 1 2000" buyer_phone buyer_code "1" "2000" 1
                (Float.of_Z 2000) listed_wheat (Float.of_Z 2275)
                ltac:(vm_compute; reflexivity) ltac:(vm_compute; reflexivity)
                ltac:(vm_compute; reflexivity) H1 eq_refl eq_refl
                ltac:(vm_compute; reflexivity))
      as [Hb [_ [He Hr]]].
    cbv zeta. unfold py_sms_handler. split; [ rewrite Hb; reflexivity | ].
    split; [ exact He | ]. rewrite Hr. vm_compute. reflexivity.
  - destruct (bid_below_minimum_is_not_stored
                Py.float_of_str Py.int_of_str Py.str_float
                db_zero_minimum "BID 1 -5" buyer_phone buyer_code "1" "-5" 1
                (Float.of_Z (-5)) zero_wheat Float.zero
                ltac:(vm_compute; reflexivity) ltac:(vm_compute; reflexivity)
                ltac:(vm_compute; reflexivity) H2 eq_refl eq_refl
                ltac:(vm_compute; reflexivity))
      as [Hb [_ [He Hr]]].
    cbv zeta. unfold py_sms_handler. split; [ rewrite Hb; reflexivity | ].
    split; [ exact He | ]. rewrite Hr. vm_compute. reflexivity.
Defined.

(** A bid of 2000 on the wheat lot listed at the MSP is turned down; the new
    buyer is registered all the same. *)
Lemma failed_bid_only_registers_sender_witness :
  bid_rejected Py.str_float db_listed 1 (Float.of_Z 2000)
               (Message "Your bid is too low. Minimum price is Rs. 2275.0.")
  /\ let o := py_sms_handler db_listed "BID 1 2000" buyer_phone buyer_code in
     reply o = Message "Your bid is too low. Minimum price is Rs. 2275.0."
     /\ lots (db_after o) = lots db_listed
     /\ bids (db_after o) = bids db_listed
     /\ users (db_after o)
        = (users db_listed
           ++ [new_user db_listed buyer_phone "buyer" None buyer_code])%list
     /\ trace o = [SendSms buyer_phone (welcome buyer_code)].
Proof.
  assert (Hrej : bid_rejected Py.str_float db_listed 1 (Float.of_Z 2000)
                   (Message "Your bid is too low. Minimum price is Rs. 2275.0.")).
  { change "Your bid is too low. Minimum price is Rs. 2275.0."
      with (too_low Py.str_float (Float.of_Z 2275)).
    apply (bid_too_low _ _ _ _ listed_wheat); vm_compute; reflexivity. }
  split; [ exact Hrej | ].
  destruct (failed_bid_only_registers_sender
              Py.float_of_str Py.int_of_str Py.str_float
              db_listed "BID 1 2000" buyer_phone buyer_code "1" "2000" 1
              (Float.of_Z 2000) _
              ltac:(vm_compute; reflexivity) ltac:(vm_compute; reflexivity)
              ltac:(vm_compute; reflexivity) Hrej)
    as [Hr [Hl [Hb [_ Hnew]]]].
  destruct (Hnew ltac:(vm_compute; reflexivity)) as [Hu Ht].
  repeat split; assumption.
Defined.

(** C2, as stated, fails: on the empty database a bid on a lot that does
    not exist is answered with [Lot is not available for bidding.], yet the
    sender has been stored as a new user. *)
Lemma failed_bid_mutates_users :
  ~ (forall db body phone code t1 t2 lid amount,
        tokens body = ["bid"; t1; t2] ->
        Py.int_of_str t1 = Some lid ->
        Py.float_of_str t2 = Some amount ->
        Lot_get db lid = Return None
        \/ (exists lot, Lot_get db lid = Return (Some lot)
                        /\ (status lot <> "open" \/ below_minimum lot amount)) ->
        db_after (py_sms_handler db body phone code) = db).
Proof.
  intro H.
  specialize (H empty_db "BID 7 100" buyer_phone buyer_code "7" "100" 7
                (Float.of_Z 100)
                ltac:(vm_compute; reflexivity) ltac:(vm_compute; reflexivity)
                ltac:(vm_compute; reflexivity) (or_introl eq_refl)).
  vm_compute in H. discriminate H.
Qed.



(** A bid of 2100 on wheat listed with a minimum of 2000 passes both checks
    and is below the MSP of 2275; it is not stored, and nothing but the
    welcome SMS to the new buyer is sent. *)
Lemma accepted_bid_is_lost_witness :
  py_replies empty_db low_auction
  = [Message "Lot listed! Crop: wheat, Quantity: 500.0kg. Lot ID: 1 at your minimum price of Rs. 2000.0.";
     ServerError "StatementError"]
  /\ bid_accepted db_low_minimum 1 (Float.of_Z 2100) low_wheat
  /\ below (Float.of_Z 2100) 2275 = true
  /\ let o := py_sms_handler db_low_minimum "BID 1 2100" buyer_phone buyer_code in
     reply o = ServerError "StatementError"
     /\ bids (db_after o) = []
     /\ trace o = [SendSms buyer_phone (welcome buyer_code)].
Proof.
  assert (Hacc : bid_accepted db_low_minimum 1 (Float.of_Z 2100) low_wheat).
  { split; [ vm_compute; reflexivity | ]. split; [ reflexivity | ].
    intros mp Hmp. inversion Hmp; subst. vm_compute. reflexivity. }
  split; [ vm_compute; reflexivity | ].
  split; [ exact Hacc | ]. split; [ vm_compute; reflexivity | ].
  destruct (accepted_bid_is_lost
              Py.float_of_str Py.int_of_str Py.str_float
              db_low_minimum "BID 1 2100" buyer_phone buyer_code "1" "2100" 1
              (Float.of_Z 2100) low_wheat
              ltac:(vm_compute; reflexivity) ltac:(vm_compute; reflexivity)
              ltac:(vm_compute; reflexivity) Hacc)
    as [Hr [Hb [_ Ht]]].
  cbv zeta. unfold py_sms_handler. split; [ exact Hr | ].
  split; [ rewrite Hb; reflexivity | rewrite Ht; reflexivity ].
Defined.

(** The replies to five malformed messages. *)
Lemma malformed_commands_reply_witness :
  reply (py_sms_handler empty_db "LIST wheat lots" farmer_phone farmer_code)
  = LIST_FORMAT
  /\ reply (py_sms_handler empty_db "BID one 2300" buyer_phone buyer_code)
     = BID_FORMAT
  /\ reply (py_sms_handler empty_db "COLLECTIVE wheat 100" farmer_phone farmer_code)
     = COLLECTIVE_FORMAT
  /\ reply (py_sms_handler empty_db "BID 1" buyer_phone buyer_code) = HELP
  /\ reply (py_sms_handler empty_db "SELL wheat 100" farmer_phone farmer_code)
     = HELP.
Proof.
  pose proof (fun body phone code =>
                malformed_commands_reply Py.float_of_str Py.int_of_str
                  Py.str_float empty_db body phone code) as M.
  cbv zeta in M. unfold py_sms_handler.
  split; [ | split; [ | split; [ | split ] ] ].
  - destruct (M "LIST wheat lots" farmer_phone farmer_code) as [H _].
    rewrite (H "wheat" "lots" []);
      [ reflexivity | vm_compute; reflexivity | left; vm_compute; reflexivity ].
  - destruct (M "BID one 2300" buyer_phone buyer_code) as [_ [H _]].
    rewrite (H "one" "2300");
      [ reflexivity | vm_compute; reflexivity | left; vm_compute; reflexivity ].
  - destruct (M "COLLECTIVE wheat 100" farmer_phone farmer_code) as [_ [_ [H _]]].
    rewrite (H "wheat" "100" []);
      [ reflexivity | vm_compute; reflexivity | right; reflexivity ].
  - destruct (M "BID 1" buyer_phone buyer_code) as [_ [_ [_ [_ [H _]]]]].
    rewrite H; [ reflexivity | vm_compute; reflexivity | vm_compute; discriminate ].
  - destruct (M "SELL wheat 100" farmer_phone farmer_code)
      as [_ [_ [_ [_ [_ [_ H]]]]]].
    rewrite H; [ reflexivity | vm_compute; discriminate .. ].
Defined.

(** C8, as stated, fails: [LIST wheat] is a LIST with too few arguments and
    is answered with the help text, not with the Invalid format reply of
    LIST. *)
Lemma short_list_gets_help :
  ~ (forall db body phone code,
        hd "" (tokens body) = "list" ->
        Z.of_nat (List.length (tokens body)) < 3 ->
        reply (py_sms_handler db body phone code) = LIST_FORMAT).
Proof.
  intro H.
  specialize (H empty_db "LIST wheat" farmer_phone farmer_code
                ltac:(vm_compute; reflexivity) ltac:(vm_compute; reflexivity)).
  vm_compute in H. discriminate H.
Qed.

Lemma pool_requests :
  collective_request Py.float_of_str "wheat" pool_1 (Float.of_Z 100)
  /\ Forall2 (collective_request Py.float_of_str "wheat") [pool_2; pool_3]
             [Float.of_Z 50; kg_25_5].
Proof.
  split; [ | constructor; [ | constructor; [ | constructor ] ] ].
  - exists "100", "delhi", []. split; vm_compute; reflexivity.
  - exists "50", "delhi", []. split; vm_compute; reflexivity.
  - exists "25.5", "delhi", []. split; vm_compute; reflexivity.
Qed.

(** Three contributions to a new wheat pool: 100 + 50 + 25.5 kg from three
    messages, three entries in the membership list. *)
Lemma collective_joins_are_additive_witness :
  open_collective empty_db "wheat" = None
  /\ forallb is_message (py_replies empty_db [pool_1; pool_2; pool_3]) = true
  /\ exists lot,
       open_collective (py_run empty_db [pool_1; pool_2; pool_3]) "wheat" = Some lot
       /\ quantity_kg lot
          = Float.stored (Float.add (Float.add (Float.of_Z 100) (Float.of_Z 50))
                                    kg_25_5)
       /\ List.length (members lot) = 3%nat.
Proof.
  assert (Hok : forallb is_message (py_replies empty_db [pool_1; pool_2; pool_3])
                = true) by (vm_compute; reflexivity).
  split; [ reflexivity | ]. split; [ exact Hok | ].
  destruct (collective_joins_are_additive
              Py.float_of_str Py.int_of_str Py.str_float
              empty_db "wheat" pool_1 (Float.of_Z 100) [pool_2; pool_3]
              [Float.of_Z 50; kg_25_5]
              eq_refl (proj1 pool_requests) (proj2 pool_requests) Hok)
    as [lot [Ho [_ [Hq [_ [Hl _]]]]]].
  exists lot. split; [ exact Ho | ]. split; [ exact Hq | exact Hl ].
Defined.



(** The one request of the farmer is well formed, and its total is not a
    number; it is rolled back. *)
Lemma join_without_total_is_rolled_back_witness :
  let db := py_run empty_db [pool_inf] in
  let o := py_sms_handler db "COLLECTIVE wheat -inf delhi" farmer_phone farmer_code in
  Float.is_nan (Float.add inf minus_inf) = true
  /\ reply o = ServerError "IntegrityError"
  /\ lots (db_after o) = lots db.
Proof.
  cbv zeta. split; [ reflexivity | ].
  destruct (join_without_total_is_rolled_back
              Py.float_of_str Py.int_of_str Py.str_float
              (py_run empty_db [pool_inf]) pool_minus_inf "wheat" minus_inf
              (mkLot 1 1 "wheat" inf None "open" true [1]))
    as [Hr [Hl _]].
  - exists "-inf", "delhi", []. split; vm_compute; reflexivity.
  - vm_compute. reflexivity.
  - reflexivity.
  - split; [ exact Hr | exact Hl ].
Defined.

(** In the state after [auction] lot 1 has no bid and its highest bid is the
    sentinel; in the table written out, the highest bid of lot 1 is 2400,
    the larger of its two bids, and not the 9000 bid on lot 2. *)
Lemma highest_bid_is_maximum_witness :
  highest_bid (py_exec empty_db auction) 1 = PyInt 0
  /\ map view_highest_bid (get_all_lots (py_exec empty_db auction)) = [PyInt 0]
  /\ exists a,
       In a [Float.of_Z 2300; Float.of_Z 2400]
       /\ number_eqb (highest_bid ledger 1) (PyFloat a) = true
       /\ Float.leb (Float.of_Z 2400) a = true.
Proof.
  destruct (highest_bid_is_maximum Py.str_float (py_exec empty_db auction) 1)
    as [H0 _].
  destruct (highest_bid_is_maximum Py.str_float ledger 1) as [_ [H _]].
  split; [ apply H0; vm_compute; reflexivity | ].
  split; [ vm_compute; reflexivity | ].
  destruct (H ltac:(vm_compute; discriminate)
              ltac:(vm_compute; repeat constructor))
    as [a [Hin [Heq Hmax]]].
  exists a. split; [ exact Hin | ]. split; [ exact Heq | ].
  apply Hmax. right. left. reflexivity.
Defined.



(** On the empty database [LIST rice 40] puts one entry on the dashboard. *)
Lemma listed_lot_is_on_the_dashboard_witness :
  get_all_lots (db_after (py_sms_handler (py_exec empty_db []) "LIST rice 40"
                                         farmer_phone farmer_code))
  = (get_all_lots (py_exec empty_db [])
     ++ [mkLotView 1 "rice" (Float.of_Z 40) (Some (Float.of_Z 2203)) (PyInt 0)])%list.
Proof.
  exact (listed_lot_is_on_the_dashboard
           Py.float_of_str Py.int_of_str Py.str_float
           [] "LIST rice 40" farmer_phone farmer_code "rice" "40" []
           (Float.of_Z 40) (Some (Float.of_Z 2203))
           ltac:(vm_compute; reflexivity) ltac:(vm_compute; reflexivity)
           (or_introl (conj eq_refl eq_refl)) eq_refl).
Defined.

(** [LIST Wheat 500] and [list wheat 500] are one command. *)
Lemma commands_ignore_case_witness :
  py_sms_handler empty_db "LIST Wheat 500" farmer_phone farmer_code
  = py_sms_handler empty_db "list wheat 500" farmer_phone farmer_code.
Proof.
  apply (commands_ignore_case Py.float_of_str Py.int_of_str Py.str_float
           empty_db "LIST Wheat 500" "list wheat 500" farmer_phone farmer_code).
  vm_compute. reflexivity.
Defined.

(** The wheat prices of Mumbai, asked for in capitals, and the 404 for
    maize. *)
Lemma historical_prices_lookup_witness :
  get_historical_prices "Wheat" "MUMBAI" = PricesOk [2300; 2350; 2400]
  /\ get_historical_prices "maize" "mumbai"
     = PricesNotFound "No historical data available for this crop and district.".
Proof.
  split.
  - destruct (historical_prices_lookup "Wheat" "MUMBAI") as [H _].
    apply H; reflexivity.
  - destruct (historical_prices_lookup "maize" "mumbai") as [_ [_ [_ [_ [H _]]]]].
    apply H. right. split; discriminate.
Defined.
